(** * Software-PWM servo driver (ATMEGA32/HAL/SERVO): model and properties

    A shallow embedding of [SERVO.c] / [SERVO_def.h].  The driver keeps a
    registry of up to nine servo channels and a timer compare-match handler
    that walks the registry once per PWM frame.  C integers are modelled as
    [Z] with their wrap-around written out; the [double] arithmetic of
    [SERVO_SetAngleByID] is modelled with the IEEE-754 operations of
    [SpecFloat]; the calls into the DIO and TIMER1 drivers are recorded in
    a call log.  A driver function runs to completion at one value of the
    timer counter: the counter moves between calls, not inside them. *)

From Stdlib Require Import ZArith Lia List Bool SpecFloat.
From stdpp Require Import base list.

Local Open Scope Z_scope.

(** ** Fixed-width unsigned integers *)

(** Conversion to an unsigned integer of [w] bits (C's modular reduction). *)
Definition wrap (w : Z) (x : Z) : Z := x mod 2 ^ w.

Definition u8 : Z -> Z := wrap 8.
Definition u16 : Z -> Z := wrap 16.
Definition u32 : Z -> Z := wrap 32.

(** ** IEEE-754 [double] arithmetic

    avr-gcc implements [double] as binary32 unless it is configured for
    64-bit doubles; both formats are covered. *)

Inductive double_format := Binary32 | Binary64.

Definition fprec (f : double_format) : Z :=
  match f with Binary32 => 24 | Binary64 => 53 end.

Definition femax (f : double_format) : Z :=
  match f with Binary32 => 128 | Binary64 => 1024 end.

Module Double.
Section Ops.
Variable f : double_format.

(** Conversion of an integer to [double]. *)
Definition of_int (n : Z) : spec_float :=
  binary_normalize (fprec f) (femax f) n 0 false.

Definition mul : spec_float -> spec_float -> spec_float :=
  SFmul (fprec f) (femax f).
Definition add : spec_float -> spec_float -> spec_float :=
  SFadd (fprec f) (femax f).
Definition div : spec_float -> spec_float -> spec_float :=
  SFdiv (fprec f) (femax f).

(** Conversion of a [double] to an integer: the fractional part is
    discarded (truncation toward zero).  Infinities and NaN have no
    defined conversion in C; they are sent to 0 here and never arise for
    angles 0..255. *)
Definition to_int (x : spec_float) : Z :=
  match x with
  | S754_finite s m e =>
      let mag := if 0 <=? e then Z.pos m * 2 ^ e else Z.pos m / 2 ^ (- e) in
      if s then - mag else mag
  | _ => 0
  end.
End Ops.
End Double.

(** ** Data model (SERVO_def.h) *)

(** [typedef struct { uint32 port : 2; uint32 pin : 3; uint32 ticks : 27; } Servo;]
    A store into a bit-field keeps the low bits of the value: see
    [store_port], [store_pin] and [store_ticks]. *)
Module Servo.
Record t := mk { port : Z; pin : Z; ticks : Z }.
End Servo.

Definition store_port (v : Z) : Z := wrap 2 v.
Definition store_pin (v : Z) : Z := wrap 3 v.
Definition store_ticks (v : Z) : Z := wrap 27 v.

Definition SERVO_MAX_NUM : Z := 9.
Definition SERVO_MIN_ANGLE : Z := 0.
Definition SERVO_MAX_ANGLE : Z := 180.
Definition SERVO_PWM_INTERVAL_US : Z := 20000.
Definition SERVO_MIN_PULSE_US : Z := 1000.
Definition SERVO_MAX_PULSE_US : Z := 200.

(** ** The DIO and TIMER1 drivers

    Neither driver is part of the sources at hand; the servo driver only
    calls them.  Every call is recorded, in program order, in the [calls]
    log of the state. *)

Inductive level := LOW | HIGH.
Inductive direction := INPUT | OUTPUT.

(** The function pointers that can be installed as a Timer1 callback. *)
Inductive isr := SERVO_Interrupt_isr.

Inductive hw_call :=
| Call_DIO_SetPinDirection (port pin : Z) (d : direction)
| Call_DIO_SetPinValue (port pin : Z) (v : level)
| Call_TIMER1_SetCallback_COMPB (handler : isr)
| Call_TIMER1_SetTimerValue (v : Z)
| Call_TIMER1_SetCompare_B_Value (v : Z).

(** The driver's globals ([servos], [servo_count]), the static local
    [servo_id] of [SERVO_Interrupt], and the part of Timer1 the driver
    reads or writes: the counter [TCNT1], the compare register [OCR1B] and
    the compare-B callback slot. *)
Record state := mkState {
  servos : list Servo.t;
  servo_count : Z;
  servo_id : Z;
  TCNT1 : Z;
  OCR1B : Z;
  compb_callback : option isr;
  calls : list hw_call
}.

Definition set_servos (v : list Servo.t) (s : state) : state :=
  mkState v (servo_count s) (servo_id s) (TCNT1 s) (OCR1B s) (compb_callback s) (calls s).
Definition set_servo_count (v : Z) (s : state) : state :=
  mkState (servos s) v (servo_id s) (TCNT1 s) (OCR1B s) (compb_callback s) (calls s).
Definition set_servo_id (v : Z) (s : state) : state :=
  mkState (servos s) (servo_count s) v (TCNT1 s) (OCR1B s) (compb_callback s) (calls s).
Definition set_TCNT1 (v : Z) (s : state) : state :=
  mkState (servos s) (servo_count s) (servo_id s) v (OCR1B s) (compb_callback s) (calls s).
Definition set_OCR1B (v : Z) (s : state) : state :=
  mkState (servos s) (servo_count s) (servo_id s) (TCNT1 s) v (compb_callback s) (calls s).
Definition set_compb_callback (v : option isr) (s : state) : state :=
  mkState (servos s) (servo_count s) (servo_id s) (TCNT1 s) (OCR1B s) v (calls s).
Definition log (c : hw_call) (s : state) : state :=
  mkState (servos s) (servo_count s) (servo_id s) (TCNT1 s) (OCR1B s) (compb_callback s)
          (calls s ++ [c]).

(** Modelled from the spec: [DIO_SetPinDirection] of the DIO driver (not in
    the sources): "GPIO control, assumed to complete synchronously and have
    no failure mode visible to this layer". *)
Definition DIO_SetPinDirection (port pin : Z) (d : direction) (s : state) : state :=
  log (Call_DIO_SetPinDirection port pin d) s.

(** Modelled from the spec: [DIO_SetPinValue] of the DIO driver (not in the
    sources): sets a digital output HIGH or LOW on a port and pin. *)
Definition DIO_SetPinValue (port pin : Z) (v : level) (s : state) : state :=
  log (Call_DIO_SetPinValue port pin v) s.

(** Modelled from the spec: [TIMER1_SetCallback] of the TIMER1 driver (not
    in the sources), called with [TIMER1_COMPB_ID]: "installs the scheduler
    as the interrupt handler". *)
Definition TIMER1_SetCallback_COMPB (f : isr) (s : state) : state :=
  log (Call_TIMER1_SetCallback_COMPB f) (set_compb_callback (Some f) s).

(** Modelled from the spec: [TIMER1_SetTimerValue] of the TIMER1 driver (not
    in the sources): writes the free-running 16-bit tick counter. *)
Definition TIMER1_SetTimerValue (v : Z) (s : state) : state :=
  log (Call_TIMER1_SetTimerValue (u16 v)) (set_TCNT1 (u16 v) s).

(** Modelled from the spec: [TIMER1_GetTimerValue] of the TIMER1 driver (not
    in the sources): reads the free-running 16-bit tick counter. *)
Definition TIMER1_GetTimerValue (s : state) : Z := TCNT1 s.

(** Modelled from the spec: [TIMER1_SetCompare_B_Value] of the TIMER1 driver
    (not in the sources): programs the 16-bit compare register, "one-shot
    compare-match scheduling". *)
Definition TIMER1_SetCompare_B_Value (v : Z) (s : state) : state :=
  log (Call_TIMER1_SetCompare_B_Value (u16 v)) (set_OCR1B (u16 v) s).

(** Modelled from the spec: [TIMER1_MAX_CAPACITY] of the TIMER1 driver (not
    in the sources), the largest value of the 16-bit counter. *)
Definition TIMER1_MAX_CAPACITY : Z := 65535.

(** [servos[i]]: the array has [SERVO_MAX_NUM] elements and every read in
    the driver is guarded by [i < servo_count]. *)
Definition servo_zero : Servo.t := Servo.mk 0 0 0.
Definition servo_at (s : state) (i : Z) : Servo.t :=
  default servo_zero (servos s !! Z.to_nat i).

(** Power-on state: zero-initialised globals, [servo_id = 0xFF]. *)
Definition initial_state : state :=
  mkState (replicate (Z.to_nat SERVO_MAX_NUM) servo_zero) 0 255 0 0 None [].

(** ** The driver (SERVO.c) *)

Section Driver.

(** Build configuration: the CPU clock [F_CPU], the Timer1 prescaler
    [TIMER1_PRESCALER] (both defined outside the driver) and the format
    of [double]. *)
Variable F_CPU : Z.
Variable TIMER1_PRESCALER : Z.
Variable dbl : double_format.

(** [#define SERVO_US_TO_TICKS(US) (((US) * (F_CPU / 1000000UL)) / (TIMER1_PRESCALER))],
    evaluated in [unsigned long] (32 bits). *)
Definition SERVO_US_TO_TICKS (US : Z) : Z :=
  u32 (US * (F_CPU / 1000000)) / TIMER1_PRESCALER.

Definition SERVO_PWM_INTERVAL_TICKS : Z := SERVO_US_TO_TICKS SERVO_PWM_INTERVAL_US.
Definition SERVO_MIN_PULSE_TICKS : Z := SERVO_US_TO_TICKS SERVO_MIN_PULSE_US.
Definition SERVO_MAX_PULSE_TICKS : Z := SERVO_US_TO_TICKS SERVO_MAX_PULSE_US.

(** First half of [SERVO_Interrupt] (lines 64-79): end the pulse of the
    active servo and move to the next one, or start a new frame. *)
Definition SERVO_Interrupt_advance (s : state) : state :=
  if servo_id s <? servo_count s then
    let s := DIO_SetPinValue (Servo.port (servo_at s (servo_id s)))
                             (Servo.pin (servo_at s (servo_id s))) LOW s in
    set_servo_id (u8 (servo_id s + 1)) s
  else
    let s := TIMER1_SetTimerValue 0 s in
    set_servo_id 0 s.

(** Second half of [SERVO_Interrupt] (lines 83-108): start the pulse of
    the new servo, or program the compare match that ends the frame.
    [TIMER1_GetTimerValue() + 50] and [+ 20] are sums of a 16-bit unsigned
    value and an [int] constant (16-bit unsigned on AVR); the sum with
    [ticks] is converted to the 16-bit parameter. *)
Definition SERVO_Interrupt_schedule (s : state) : state :=
  if servo_id s <? servo_count s then
    if 0 <? Servo.ticks (servo_at s (servo_id s)) then
      let s := TIMER1_SetCompare_B_Value
                 (TIMER1_GetTimerValue s + Servo.ticks (servo_at s (servo_id s))) s in
      DIO_SetPinValue (Servo.port (servo_at s (servo_id s)))
                      (Servo.pin (servo_at s (servo_id s))) HIGH s
    else s
  else
    if u16 (TIMER1_GetTimerValue s + 50) <? SERVO_PWM_INTERVAL_TICKS then
      TIMER1_SetCompare_B_Value SERVO_PWM_INTERVAL_TICKS s
    else
      TIMER1_SetCompare_B_Value (u16 (TIMER1_GetTimerValue s + 20)) s.

(** [static void SERVO_Interrupt( void )] *)
Definition SERVO_Interrupt (s : state) : state :=
  SERVO_Interrupt_schedule (SERVO_Interrupt_advance s).

(** [uint8 SERVO_Init( uint8 port , uint8 pin )] *)
Definition SERVO_Init (port pin : Z) (s : state) : Z * state :=
  if SERVO_MAX_NUM <=? servo_count s then (255, s)
  else
    let s :=
      if servo_count s =? 0 then
        let s := TIMER1_SetCallback_COMPB SERVO_Interrupt_isr s in
        TIMER1_SetTimerValue 0 s
      else s in
    let s := set_servos
               (<[Z.to_nat (servo_count s) :=
                    Servo.mk (store_port port) (store_pin pin) (store_ticks 0)]>
                  (servos s)) s in
    let s := DIO_SetPinDirection port pin OUTPUT s in
    let s := DIO_SetPinValue port pin LOW s in
    (servo_count s, set_servo_count (u8 (servo_count s + 1)) s).

(** [uint16 microseconds = SERVO_MIN_PULSE_US + angle * ( 1000.0 / 180 );] *)
Definition microseconds_of_angle (angle : Z) : Z :=
  u16 (Double.to_int
         (Double.add dbl (Double.of_int dbl SERVO_MIN_PULSE_US)
            (Double.mul dbl (Double.of_int dbl angle)
               (Double.div dbl (Double.of_int dbl 1000) (Double.of_int dbl 180))))).

(** The value [SERVO_SetAngleByID] stores in [ticks] for a valid angle
    (lines 186-189). *)
Definition angle_ticks (angle : Z) : Z :=
  store_ticks (SERVO_US_TO_TICKS (microseconds_of_angle angle)).

(** [void SERVO_SetAngleByID( uint8 servo_id , uint8 angle )] *)
Definition SERVO_SetAngleByID (servo_id angle : Z) (s : state) : state :=
  if (SERVO_MIN_ANGLE <=? angle) && (angle <=? SERVO_MAX_ANGLE)
     && (servo_id <? servo_count s) then
    let microseconds := microseconds_of_angle angle in
    let old := servo_at s servo_id in
    set_servos
      (<[Z.to_nat servo_id :=
           Servo.mk (Servo.port old) (Servo.pin old)
                    (store_ticks (SERVO_US_TO_TICKS microseconds))]> (servos s)) s
  else s.

(** Body of the loop of [SERVO_SetAngleByPin] for one value of its index. *)
Definition SERVO_SetAngleByPin_body (port pin angle : Z) (s : state) (servo_id : Z) : state :=
  if (Servo.pin (servo_at s servo_id) =? pin)
     && (Servo.port (servo_at s servo_id) =? port) then
    SERVO_SetAngleByID servo_id angle s
  else s.

(** [void SERVO_SetAngleByPin( uint8 port , uint8 pin , uint8 angle )]:
    the loop runs [servo_id] over [0 .. servo_count - 1]; its body never
    changes [servo_count]. *)
Definition SERVO_SetAngleByPin (port pin angle : Z) (s : state) : state :=
  foldl (SERVO_SetAngleByPin_body port pin angle) s
        (map Z.of_nat (seq 0 (Z.to_nat (servo_count s)))).

End Driver.

(** ** States the C program can be in *)

(** Every field of a [Servo] fits its bit-field. *)
Definition servo_fits (x : Servo.t) : bool :=
  (0 <=? Servo.port x) && (Servo.port x <? 2 ^ 2)
  && (0 <=? Servo.pin x) && (Servo.pin x <? 2 ^ 3)
  && (0 <=? Servo.ticks x) && (Servo.ticks x <? 2 ^ 27).

(** Every variable holds a value of its C type, the array has its declared
    size and [servo_count] does not exceed it. *)
Definition state_invb (s : state) : bool :=
  (length (servos s) =? Z.to_nat SERVO_MAX_NUM)%nat
  && forallb servo_fits (servos s)
  && (0 <=? servo_count s) && (servo_count s <=? SERVO_MAX_NUM)
  && (0 <=? servo_id s) && (servo_id s <? 2 ^ 8)
  && (0 <=? TCNT1 s) && (TCNT1 s <? 2 ^ 16)
  && (0 <=? OCR1B s) && (OCR1B s <? 2 ^ 16).

Definition state_inv (s : state) : Prop := state_invb s = true.

(** ** Calls into the driver *)

Inductive op :=
| Op_Init (port pin : Z)
| Op_SetAngleByID (servo_id angle : Z)
| Op_SetAngleByPin (port pin angle : Z)
| Op_Interrupt (now : Z).

Definition is_u8 (x : Z) : bool := (0 <=? x) && (x <? 2 ^ 8).
Definition is_u16 (x : Z) : bool := (0 <=? x) && (x <? 2 ^ 16).

(** The arguments are values of the parameters' type [uint8]; [now] is the
    value of the 16-bit counter when the handler is entered. *)
Definition op_ok (o : op) : bool :=
  match o with
  | Op_Init port pin => is_u8 port && is_u8 pin
  | Op_SetAngleByID servo_id angle => is_u8 servo_id && is_u8 angle
  | Op_SetAngleByPin port pin angle => is_u8 port && is_u8 pin && is_u8 angle
  | Op_Interrupt now => is_u16 now
  end.

(** Calls made by the application, as opposed to the timer interrupt. *)
Definition foreground (o : op) : bool :=
  match o with Op_Interrupt _ => false | _ => true end.

Definition is_Init (o : op) : bool :=
  match o with Op_Init _ _ => true | _ => false end.

Section Runs.
Variable F_CPU : Z.
Variable TIMER1_PRESCALER : Z.
Variable dbl : double_format.

(** The compare-match interrupt: Timer1 has counted up to [now] and calls
    the installed callback, if any.  The handler reads [now] whenever it
    asks for the counter value, unless it has reset the counter itself. *)
Definition compare_match (now : Z) (s : state) : state :=
  match compb_callback s with
  | Some SERVO_Interrupt_isr =>
      SERVO_Interrupt F_CPU TIMER1_PRESCALER (set_TCNT1 now s)
  | None => s
  end.

Definition run_op (s : state) (o : op) : state :=
  match o with
  | Op_Init port pin => snd (SERVO_Init port pin s)
  | Op_SetAngleByID servo_id angle =>
      SERVO_SetAngleByID F_CPU TIMER1_PRESCALER dbl servo_id angle s
  | Op_SetAngleByPin port pin angle =>
      SERVO_SetAngleByPin F_CPU TIMER1_PRESCALER dbl port pin angle s
  | Op_Interrupt now => compare_match now s
  end.

Definition run_ops (ops : list op) (s : state) : state := foldl run_op s ops.

(** A state is reachable when a sequence of well-typed calls leads to it
    from the power-on state. *)
Definition reachable (s : state) : Prop :=
  exists ops, forallb op_ok ops = true /\ s = run_ops ops initial_state.

(** Successive invocations of the handler, entered at the counter values
    [nows], with no foreground call in between. *)
Definition run_interrupts (nows : list Z) (s : state) : state :=
  foldl (fun s now => SERVO_Interrupt F_CPU TIMER1_PRESCALER (set_TCNT1 now s)) s nows.

(** Every registered servo has [ticks = 0] or a tick count between the
  ones of 1000 and 2000 microseconds. *)
Definition pulse_inv (s : state) : Prop :=
forall i, 0 <= i < servo_count s ->
  Servo.ticks (servo_at s i) = 0 \/
  SERVO_US_TO_TICKS F_CPU TIMER1_PRESCALER 1000 <= Servo.ticks (servo_at s i)
  <= SERVO_US_TO_TICKS F_CPU TIMER1_PRESCALER 2000.

End Runs.

Fixpoint count_inits (ops : list op) : Z :=
  match ops with
  | [] => 0
  | o :: ops => (if is_Init o then 1 else 0) + count_inits ops
  end.

(** The call that ends the pulse of servo [i]. *)
Definition pulse_end (s : state) (i : Z) : hw_call :=
  Call_DIO_SetPinValue (Servo.port (servo_at s i)) (Servo.pin (servo_at s i)) LOW.

(** The calls that begin the pulse of servo [i] when the counter reads
    [now]; none if its [ticks] is 0. *)
Definition pulse_begin (s : state) (i now : Z) : list hw_call :=
  if 0 <? Servo.ticks (servo_at s i) then
    [Call_TIMER1_SetCompare_B_Value (u16 (now + Servo.ticks (servo_at s i)));
     Call_DIO_SetPinValue (Servo.port (servo_at s i)) (Servo.pin (servo_at s i)) HIGH]
  else [].

(** The floating-point computation of [microseconds] is checked against
    integer arithmetic for each of the angles 0..180. *)
Definition microseconds_table_ok (dbl : double_format) : bool :=
  forallb (fun n => microseconds_of_angle dbl (Z.of_nat n) =? 1000 + 50 * Z.of_nat n / 9)
          (seq 0 181).

(** Modelled from the spec: the compare-match event of Timer1 (the TIMER1
    driver is not in the sources): "a hardware event fired when a
    free-running counter reaches a pre-programmed value".  The number of
    ticks the 16-bit free-running counter needs to come to the value of the
    compare register: a whole period of the counter when it is at that
    value already. *)
Definition ticks_to_compare_match (s : state) : Z :=
  let d := u16 (OCR1B s - TCNT1 s) in
  if d =? 0 then 65536 else d.

(** The calls logged in [s'] since [s]. *)
Definition calls_since (s s' : state) : list hw_call :=
  skipn (length (calls s)) (calls s').

(** Modelled from the spec: the compare-match event of Timer1 taken at its
    exact time (the TIMER1 driver is not in the sources): the handler is
    entered when the counter has reached the value of the compare
    register, and reads that value. *)
Definition fire (F_CPU TIMER1_PRESCALER : Z) (s : state) : state :=
  SERVO_Interrupt F_CPU TIMER1_PRESCALER (set_TCNT1 (OCR1B s) s).

(** [n] compare matches in a row, with no foreground call in between. *)
Definition fires (F_CPU TIMER1_PRESCALER : Z) (n : nat) (s : state) : state :=
  Nat.iter n (fire F_CPU TIMER1_PRESCALER) s.

(** The sum of [ticks] of the servos [0 .. k-1]. *)
Fixpoint ticks_sum (s : state) (k : nat) : Z :=
  match k with
  | O => 0
  | S k => ticks_sum s k + Servo.ticks (servo_at s (Z.of_nat k))
  end.

(** The test of [SERVO_SetAngleByPin] on one entry. *)
Definition pin_matches (port pin : Z) (x : Servo.t) : bool :=
  (Servo.pin x =? pin) && (Servo.port x =? port).

(** The cursor is the power-on sentinel or at most [servo_count]. *)
Definition cursor_inv (s : state) : Prop :=
  servo_id s = 255 \/ 0 <= servo_id s <= servo_count s.

(** ** A sample configuration and history

    An 8 MHz clock with prescaler 8 (one tick per microsecond) and binary32
    doubles; three servos, the third registered with pin 9, the first set
    to 0 degrees, the third to 180 degrees and the second never commanded. *)

Definition demo_F_CPU : Z := 8000000.
Definition demo_PRESCALER : Z := 8.

Definition demo_ops : list op :=
  [Op_Init 0 0; Op_Init 1 3; Op_Init 2 9; Op_SetAngleByID 0 0; Op_SetAngleByID 2 180].

Definition demo_state : state :=
  run_ops demo_F_CPU demo_PRESCALER Binary32 demo_ops initial_state.


(** Nine registrations. *)
Definition demo_nine : list op := map (fun n => Op_Init 0 (Z.of_nat n)) (seq 0 9).

Definition demo_full : state :=
  run_ops demo_F_CPU demo_PRESCALER Binary32 demo_nine initial_state.

(** One registration. *)
Definition demo_one : state := snd (SERVO_Init 0 0 initial_state).

(** The sample history continued: the second servo is set to 90 degrees,
    so that the three servos have [ticks] 1000, 1500 and 2000. *)
Definition demo_all_ops : list op := demo_ops ++ [Op_SetAngleByID 1 90].

Definition demo_all : state :=
  run_ops demo_F_CPU demo_PRESCALER Binary32 demo_all_ops initial_state.

(** The same pin registered twice, with another servo in between. *)
Definition demo_twice : state :=
  run_ops demo_F_CPU demo_PRESCALER Binary32
    [Op_Init 1 3; Op_Init 2 2; Op_Init 1 3] initial_state.

(** The sample state one invocation into a frame: the cursor is on servo 0,
    whose pulse has begun. *)
Definition demo_pulse : state :=
  run_interrupts demo_F_CPU demo_PRESCALER [7] demo_state.



(** Port 6 and pin 13 registered, the servo set to 90 degrees. *)
Definition demo_alias : state :=
  run_ops demo_F_CPU demo_PRESCALER Binary32 [Op_SetAngleByID 0 90]
    (snd (SERVO_Init 6 13 initial_state)).

(** ** Arithmetic facts *)

Lemma wrap_range (w x : Z) : 0 <= w -> 0 <= wrap w x < 2 ^ w.
Proof.
  intros Hw. unfold wrap. apply Z.mod_pos_bound. apply Z.pow_pos_nonneg; lia.
Qed.

Lemma wrap_small (w x : Z) : 0 <= x < 2 ^ w -> wrap w x = x.
Proof. intros H. unfold wrap. apply Z.mod_small. exact H. Qed.

(** ** Reading the invariant *)

Lemma servo_fits_elim (x : Servo.t) :
  servo_fits x = true ->
  0 <= Servo.port x < 4 /\ 0 <= Servo.pin x < 8 /\ 0 <= Servo.ticks x < 2 ^ 27.
Proof.
  unfold servo_fits. rewrite !andb_true_iff.
  intros [[[[[H1 H2] H3] H4] H5] H6].
  apply Z.leb_le in H1, H3, H5. apply Z.ltb_lt in H2, H4, H6.
  change (2 ^ 2) with 4 in H2. change (2 ^ 3) with 8 in H4. lia.
Qed.

Lemma servo_fits_intro (x : Servo.t) :
  0 <= Servo.port x < 4 -> 0 <= Servo.pin x < 8 -> 0 <= Servo.ticks x < 2 ^ 27 ->
  servo_fits x = true.
Proof.
  intros H1 H2 H3. unfold servo_fits. rewrite !andb_true_iff.
  change (2 ^ 2) with 4. change (2 ^ 3) with 8.
  repeat split; first [apply Z.leb_le | apply Z.ltb_lt]; lia.
Qed.

Lemma state_inv_elim (s : state) :
  state_inv s ->
  length (servos s) = 9%nat /\
  forallb servo_fits (servos s) = true /\
  0 <= servo_count s <= 9 /\ 0 <= servo_id s < 256 /\
  0 <= TCNT1 s < 65536 /\ 0 <= OCR1B s < 65536.
Proof.
  unfold state_inv, state_invb. rewrite !andb_true_iff.
  intros [[[[[[[[[H1 H2] H3] H4] H5] H6] H7] H8] H9] H10].
  apply Nat.eqb_eq in H1.
  apply Z.leb_le in H3, H4, H5, H7, H9. apply Z.ltb_lt in H6, H8, H10.
  change (2 ^ 8) with 256 in H6. change (2 ^ 16) with 65536 in H8, H10.
  unfold SERVO_MAX_NUM in *. change (Z.to_nat 9) with 9%nat in H1.
  repeat split; solve [assumption | lia].
Qed.

Lemma state_inv_intro (s : state) :
  length (servos s) = 9%nat ->
  forallb servo_fits (servos s) = true ->
  0 <= servo_count s <= 9 -> 0 <= servo_id s < 256 ->
  0 <= TCNT1 s < 65536 -> 0 <= OCR1B s < 65536 ->
  state_inv s.
Proof.
  intros H1 H2 H3 H4 H5 H6. unfold state_inv, state_invb.
  rewrite !andb_true_iff. unfold SERVO_MAX_NUM.
  change (2 ^ 8) with 256. change (2 ^ 16) with 65536.
  change (Z.to_nat 9) with 9%nat.
  repeat split; first [apply Nat.eqb_eq | apply Z.leb_le | apply Z.ltb_lt | idtac];
    solve [assumption | lia].
Qed.

Lemma servo_at_fits (s : state) (i : Z) :
  forallb servo_fits (servos s) = true -> servo_fits (servo_at s i) = true.
Proof.
  intros H. unfold servo_at.
  destruct (servos s !! Z.to_nat i) as [x|] eqn:E; simpl; [|reflexivity].
  rewrite forallb_forall in H. apply H.
  apply list_elem_of_In. eapply list_elem_of_lookup_2. exact E.
Qed.

(** ** Array reads after an array write *)

Lemma forallb_insert {A} (f : A -> bool) (l : list A) (i : nat) (x : A) :
  forallb f l = true -> f x = true -> forallb f (<[i:=x]> l) = true.
Proof.
  revert i. induction l as [|y l IH]; intros i Hl Hx; [exact Hl|].
  simpl in Hl. apply andb_true_iff in Hl as [Hy Hl].
  destruct i as [|i]; simpl; apply andb_true_iff; auto.
Qed.

Lemma servo_at_written (s : state) (l : list Servo.t) (i : Z) (v : Servo.t) :
  (Z.to_nat i < length l)%nat ->
  servo_at (set_servos (<[Z.to_nat i:=v]> l) s) i = v.
Proof.
  intros H. unfold servo_at. simpl.
  rewrite list_lookup_insert_eq by exact H. reflexivity.
Qed.

Lemma servo_at_other (s : state) (i j : Z) (v : Servo.t) :
  0 <= i -> 0 <= j -> i <> j ->
  servo_at (set_servos (<[Z.to_nat i:=v]> (servos s)) s) j = servo_at s j.
Proof.
  intros Hi Hj Hne. unfold servo_at. simpl.
  rewrite list_lookup_insert_ne by lia. reflexivity.
Qed.

(** ** The invariant is kept by every call *)

Section Preservation.
Variable F_CPU : Z.
Variable TIMER1_PRESCALER : Z.
Variable dbl : double_format.

Local Abbreviation SetAngleByID := (SERVO_SetAngleByID F_CPU TIMER1_PRESCALER dbl).
Local Abbreviation SetAngleByPin := (SERVO_SetAngleByPin F_CPU TIMER1_PRESCALER dbl).
Local Abbreviation Interrupt := (SERVO_Interrupt F_CPU TIMER1_PRESCALER).

Lemma initial_state_inv : state_inv initial_state.
Proof. reflexivity. Qed.

Lemma SERVO_Init_inv (port pin : Z) (s : state) :
    state_inv s -> state_inv (snd (SERVO_Init port pin s)).
Proof.
    intros Hs. pose proof (state_inv_elim s Hs) as (Hlen & Hfit & Hc & Hid & Ht & Ho).
    unfold SERVO_Init, SERVO_MAX_NUM.
    destruct (9 <=? servo_count s) eqn:Hfull; [exact Hs|].
    apply Z.leb_gt in Hfull.
    assert (Hnew : servo_fits (Servo.mk (store_port port) (store_pin pin) (store_ticks 0)) = true).
    { apply servo_fits_intro; simpl.
      - apply (wrap_range 2); lia.
      - apply (wrap_range 3); lia.
      - apply (wrap_range 27); lia. }
    destruct (servo_count s =? 0) eqn:Hz; simpl;
      (apply state_inv_intro; simpl;
       [ rewrite length_insert; exact Hlen
       | apply forallb_insert; assumption
       | unfold u8; rewrite wrap_small; change (2 ^ 8) with 256; lia
       | assumption
       | first [assumption | unfold u16; apply (wrap_range 16); lia]
       | assumption ]).
Qed.

Lemma SERVO_SetAngleByID_inv (servo_id angle : Z) (s : state) :
    state_inv s -> state_inv (SetAngleByID servo_id angle s).
Proof.
    intros Hs. pose proof (state_inv_elim s Hs) as (Hlen & Hfit & Hc & Hid & Ht & Ho).
    unfold SERVO_SetAngleByID.
    destruct (_ && _); [|exact Hs].
    pose proof (servo_fits_elim _ (servo_at_fits s servo_id Hfit)) as (Hp & Hq & _).
    apply state_inv_intro; simpl; try assumption.
    - rewrite length_insert. exact Hlen.
    - apply forallb_insert; [exact Hfit|].
      apply servo_fits_intro; simpl; try assumption.
      apply (wrap_range 27); lia.
Qed.

Lemma SERVO_SetAngleByID_globals (i angle : Z) (s : state) :
    servo_count (SetAngleByID i angle s) = servo_count s /\
    servo_id (SetAngleByID i angle s) = servo_id s /\
    TCNT1 (SetAngleByID i angle s) = TCNT1 s /\
    OCR1B (SetAngleByID i angle s) = OCR1B s /\
    compb_callback (SetAngleByID i angle s) = compb_callback s /\
    calls (SetAngleByID i angle s) = calls s.
Proof.
    unfold SERVO_SetAngleByID. destruct (_ && _); simpl; repeat split; reflexivity.
Qed.

Lemma SERVO_SetAngleByPin_fold_inv (port pin angle : Z) (ids : list Z) (s : state) :
    state_inv s ->
    state_inv (foldl (SERVO_SetAngleByPin_body F_CPU TIMER1_PRESCALER dbl port pin angle) s ids).
Proof.
    revert s. induction ids as [|i ids IH]; intros s Hs; [exact Hs|].
    simpl. apply IH. unfold SERVO_SetAngleByPin_body.
    destruct (_ && _); [apply SERVO_SetAngleByID_inv|]; exact Hs.
Qed.

Lemma SERVO_SetAngleByPin_fold_globals (port pin angle : Z) (ids : list Z) (s : state) :
    let s' := foldl (SERVO_SetAngleByPin_body F_CPU TIMER1_PRESCALER dbl port pin angle) s ids in
    servo_count s' = servo_count s /\ servo_id s' = servo_id s /\
    TCNT1 s' = TCNT1 s /\ OCR1B s' = OCR1B s /\
    compb_callback s' = compb_callback s /\ calls s' = calls s.
Proof.
    revert s. induction ids as [|i ids IH]; intros s; [simpl; tauto|].
    simpl. specialize (IH (SERVO_SetAngleByPin_body F_CPU TIMER1_PRESCALER dbl port pin angle s i)).
    simpl in IH. destruct IH as (H1 & H2 & H3 & H4 & H5 & H6).
    rewrite H1, H2, H3, H4, H5, H6. unfold SERVO_SetAngleByPin_body.
    destruct (_ && _); [apply SERVO_SetAngleByID_globals|tauto].
Qed.

Lemma SERVO_SetAngleByPin_inv (port pin angle : Z) (s : state) :
    state_inv s -> state_inv (SetAngleByPin port pin angle s).
Proof. apply SERVO_SetAngleByPin_fold_inv. Qed.

  (** The handler never writes the registry. *)
Lemma SERVO_Interrupt_registry (s : state) :
    servos (Interrupt s) = servos s /\ servo_count (Interrupt s) = servo_count s /\
    compb_callback (Interrupt s) = compb_callback s.
Proof.
    unfold SERVO_Interrupt, SERVO_Interrupt_schedule, SERVO_Interrupt_advance.
    destruct (servo_id s <? servo_count s); simpl;
      repeat (match goal with |- context [if ?b then _ else _] => destruct b end; simpl);
      repeat split; reflexivity.
Qed.

Lemma SERVO_Interrupt_inv (s : state) : state_inv s -> state_inv (Interrupt s).
Proof.
    intros Hs. pose proof (state_inv_elim s Hs) as (Hlen & Hfit & Hc & Hid & Ht & Ho).
    pose proof (SERVO_Interrupt_registry s) as (Hsv & Hcnt & _).
    apply state_inv_intro; rewrite ?Hsv, ?Hcnt; try assumption;
      unfold SERVO_Interrupt, SERVO_Interrupt_schedule, SERVO_Interrupt_advance;
      destruct (servo_id s <? servo_count s); simpl;
      repeat (match goal with |- context [if ?b then _ else _] => destruct b end; simpl);
      try assumption; try lia;
      first [ apply (wrap_range 8); lia | apply (wrap_range 16); lia ].
Qed.

Lemma set_TCNT1_inv (now : Z) (s : state) :
    is_u16 now = true -> state_inv s -> state_inv (set_TCNT1 now s).
Proof.
    intros Hn Hs. pose proof (state_inv_elim s Hs) as (Hlen & Hfit & Hc & Hid & Ht & Ho).
    unfold is_u16 in Hn. apply andb_true_iff in Hn as [H1 H2].
    apply Z.leb_le in H1. apply Z.ltb_lt in H2. change (2 ^ 16) with 65536 in H2.
    apply state_inv_intro; simpl; try assumption. lia.
Qed.

Lemma run_op_inv (s : state) (o : op) :
    op_ok o = true -> state_inv s -> state_inv (run_op F_CPU TIMER1_PRESCALER dbl s o).
Proof.
    intros Ho Hs. destruct o as [port pin|i angle|port pin angle|now]; simpl.
    - apply SERVO_Init_inv, Hs.
    - apply SERVO_SetAngleByID_inv, Hs.
    - apply SERVO_SetAngleByPin_inv, Hs.
    - unfold compare_match. destruct (compb_callback s) as [[]|]; [|exact Hs].
      apply SERVO_Interrupt_inv, set_TCNT1_inv; assumption.
Qed.

Lemma run_ops_inv (ops : list op) (s : state) :
    forallb op_ok ops = true -> state_inv s ->
    state_inv (run_ops F_CPU TIMER1_PRESCALER dbl ops s).
Proof.
    revert s. induction ops as [|o ops IH]; intros s Hok Hs; [exact Hs|].
    simpl in Hok. apply andb_true_iff in Hok as [Ho Hok].
    unfold run_ops. simpl. apply IH; [exact Hok|]. apply run_op_inv; assumption.
Qed.

Lemma reachable_inv (s : state) :
    reachable F_CPU TIMER1_PRESCALER dbl s -> state_inv s.
Proof.
    intros (ops & Hok & ->). apply run_ops_inv; [exact Hok|apply initial_state_inv].
Qed.
End Preservation.

(** ** Degrees to microseconds *)

Lemma microseconds_table (dbl : double_format) : microseconds_table_ok dbl = true.
Proof. destruct dbl; vm_compute; reflexivity. Qed.

Lemma microseconds_of_angle_exact (dbl : double_format) (angle : Z) :
  0 <= angle <= 180 -> microseconds_of_angle dbl angle = 1000 + 50 * angle / 9.
Proof.
  intros Ha. pose proof (microseconds_table dbl) as Htab.
  unfold microseconds_table_ok in Htab. rewrite forallb_forall in Htab.
  specialize (Htab (Z.to_nat angle)). rewrite Z2Nat.id in Htab by lia.
  apply Z.eqb_eq, Htab. apply in_seq. lia.
Qed.

Lemma microseconds_of_angle_range (dbl : double_format) (angle : Z) :
  0 <= angle <= 180 -> 1000 <= microseconds_of_angle dbl angle <= 2000.
Proof.
  intros Ha. rewrite microseconds_of_angle_exact by exact Ha.
  assert (0 <= 50 * angle / 9) by (apply Z.div_pos; lia).
  assert (50 * angle / 9 <= 50 * 180 / 9) by (apply Z.div_le_mono; lia).
  change (50 * 180 / 9) with 1000 in *. lia.
Qed.

Lemma microseconds_of_angle_mono (dbl : double_format) (a1 a2 : Z) :
  0 <= a1 -> a1 <= a2 -> a2 <= 180 ->
  microseconds_of_angle dbl a1 <= microseconds_of_angle dbl a2.
Proof.
  intros H0 H12 H2. rewrite !microseconds_of_angle_exact by lia.
  assert (50 * a1 / 9 <= 50 * a2 / 9) by (apply Z.div_le_mono; lia). lia.
Qed.

(** ** Microseconds to ticks *)

Section Ticks.
Variable F_CPU : Z.
Variable TIMER1_PRESCALER : Z.

(** [F_CPU] is an [unsigned long] constant and the prescaler a positive
    divisor. *)
Hypothesis F_CPU_range : 0 <= F_CPU < 2 ^ 32.
Hypothesis PRESCALER_pos : 0 < TIMER1_PRESCALER.

Local Abbreviation US_TO_TICKS := (SERVO_US_TO_TICKS F_CPU TIMER1_PRESCALER).

Lemma MHz_range : 0 <= F_CPU / 1000000 <= 4294.
Proof.
  split; [apply Z.div_pos; lia|].
  change 4294 with ((2 ^ 32 - 1) / 1000000). apply Z.div_le_mono; lia.
Qed.

(** For a 16-bit number of microseconds the product does not overflow. *)
Lemma SERVO_US_TO_TICKS_exact (us : Z) :
  0 <= us < 2 ^ 16 -> US_TO_TICKS us = us * (F_CPU / 1000000) / TIMER1_PRESCALER.
Proof.
  intros Hus. unfold SERVO_US_TO_TICKS, u32. rewrite wrap_small; [reflexivity|].
  pose proof MHz_range as HM. change (2 ^ 16) with 65536 in Hus.
  change (2 ^ 32) with 4294967296. nia.
Qed.

Lemma SERVO_US_TO_TICKS_mono (us1 us2 : Z) :
  0 <= us1 -> us1 <= us2 -> us2 < 2 ^ 16 -> US_TO_TICKS us1 <= US_TO_TICKS us2.
Proof.
  intros H0 H12 H2. rewrite !SERVO_US_TO_TICKS_exact by lia.
  pose proof MHz_range as HM. apply Z.div_le_mono; [lia|nia].
Qed.

Lemma SERVO_US_TO_TICKS_fits (us : Z) :
  0 <= us <= 2000 -> 0 <= US_TO_TICKS us < 2 ^ 27.
Proof.
  intros Hus. rewrite SERVO_US_TO_TICKS_exact by (change (2 ^ 16) with 65536; lia).
  pose proof MHz_range as HM.
  assert (Hnum : 0 <= us * (F_CPU / 1000000) <= 2000 * 4294) by nia.
  split; [apply Z.div_pos; lia|].
  apply Z.div_lt_upper_bound; [lia|].
  change (2 ^ 27) with 134217728. nia.
Qed.

(** The stored tick count of a valid angle, without the reductions. *)
Lemma angle_ticks_exact (dbl : double_format) (angle : Z) :
  0 <= angle <= 180 ->
  angle_ticks F_CPU TIMER1_PRESCALER dbl angle
  = US_TO_TICKS (microseconds_of_angle dbl angle).
Proof.
  intros Ha. unfold angle_ticks, store_ticks. apply wrap_small.
  apply SERVO_US_TO_TICKS_fits.
  pose proof (microseconds_of_angle_range dbl angle Ha). lia.
Qed.

Lemma angle_ticks_bounds (dbl : double_format) (angle : Z) :
  0 <= angle <= 180 ->
  US_TO_TICKS 1000 <= angle_ticks F_CPU TIMER1_PRESCALER dbl angle <= US_TO_TICKS 2000.
Proof.
  intros Ha. rewrite angle_ticks_exact by exact Ha.
  pose proof (microseconds_of_angle_range dbl angle Ha) as Hr.
  split; apply SERVO_US_TO_TICKS_mono; change (2 ^ 16) with 65536; lia.
Qed.

End Ticks.

(** ** Registration *)

Lemma count_inits_nonneg (ops : list op) : 0 <= count_inits ops.
Proof. induction ops as [|o ops IH]; simpl; [lia|]. destruct (is_Init o); lia. Qed.

Lemma log_chain2 (l : list hw_call) (a b : hw_call) : (l ++ [a]) ++ [b] = l ++ [a; b].
Proof. rewrite <- app_assoc. reflexivity. Qed.

Lemma log_chain4 (l : list hw_call) (a b c d : hw_call) :
  (((l ++ [a]) ++ [b]) ++ [c]) ++ [d] = l ++ [a; b; c; d].
Proof. rewrite <- !app_assoc. reflexivity. Qed.

Section Registration.
Variable F_CPU : Z.
Variable TIMER1_PRESCALER : Z.
Variable dbl : double_format.

Local Abbreviation run := (run_ops F_CPU TIMER1_PRESCALER dbl).

Lemma SERVO_Init_count (port pin : Z) (s : state) :
  state_inv s ->
  servo_count (snd (SERVO_Init port pin s)) = Z.min 9 (servo_count s + 1).
Proof.
  intros Hs. pose proof (state_inv_elim s Hs) as (_ & _ & Hc & _).
  unfold SERVO_Init, SERVO_MAX_NUM.
  destruct (9 <=? servo_count s) eqn:Hfull.
  - apply Z.leb_le in Hfull. simpl. lia.
  - apply Z.leb_gt in Hfull.
    destruct (servo_count s =? 0); simpl; unfold u8; rewrite wrap_small;
      change (2 ^ 8) with 256; lia.
Qed.

Lemma run_op_count (s : state) (o : op) :
  state_inv s ->
  servo_count (run_op F_CPU TIMER1_PRESCALER dbl s o)
  = if is_Init o then Z.min 9 (servo_count s + 1) else servo_count s.
Proof.
  intros Hs. destruct o as [port pin|i angle|port pin angle|now]; simpl.
  - apply SERVO_Init_count, Hs.
  - apply SERVO_SetAngleByID_globals.
  - apply (SERVO_SetAngleByPin_fold_globals F_CPU TIMER1_PRESCALER dbl).
  - unfold compare_match. destruct (compb_callback s) as [[]|]; [|reflexivity].
    pose proof (SERVO_Interrupt_registry F_CPU TIMER1_PRESCALER (set_TCNT1 now s))
      as (_ & Hcnt & _).
    exact Hcnt.
Qed.

Lemma run_ops_count (ops : list op) (s : state) :
  forallb op_ok ops = true -> state_inv s ->
  servo_count (run ops s) = Z.min 9 (servo_count s + count_inits ops).
Proof.
  revert s. induction ops as [|o ops IH]; intros s Hok Hs.
  - pose proof (state_inv_elim s Hs) as (_ & _ & Hc & _). simpl. lia.
  - simpl in Hok. apply andb_true_iff in Hok as [Ho Hok].
    unfold run_ops. simpl. fold (run ops (run_op F_CPU TIMER1_PRESCALER dbl s o)).
    rewrite IH by (try apply run_op_inv; assumption).
    rewrite run_op_count by exact Hs.
    pose proof (count_inits_nonneg ops). destruct (is_Init o); lia.
Qed.

Lemma SERVO_Init_servos (port pin : Z) (s : state) :
  servo_count s < SERVO_MAX_NUM ->
  servos (snd (SERVO_Init port pin s))
  = <[Z.to_nat (servo_count s) :=
        Servo.mk (store_port port) (store_pin pin) 0]> (servos s).
Proof.
  intros Hroom. unfold SERVO_Init. apply Z.leb_gt in Hroom. rewrite Hroom.
  destruct (servo_count s =? 0); reflexivity.
Qed.

(** C4. Once [servo_count] has reached [SERVO_MAX_NUM] = 9, [SERVO_Init]
    returns 0xFF and the state it returns is the state it was given: array,
    count, cursor, timer registers and call log are all the same.  This is
    the case after any history of calls that contains nine or more calls
    of [SERVO_Init], so the tenth registration fails in this way. *)
Theorem SERVO_Init_registry_full (s : state) (ops : list op) (port pin : Z) :
  SERVO_MAX_NUM <= servo_count s ->
  forallb op_ok ops = true ->
  9 <= count_inits ops ->
  SERVO_Init port pin s = (255, s) /\
  SERVO_Init port pin (run ops initial_state) = (255, run ops initial_state).
Proof.
  intros Hfull Hok Hnine.
  assert (Hgen : forall t, SERVO_MAX_NUM <= servo_count t -> SERVO_Init port pin t = (255, t)).
  { intros t Ht. unfold SERVO_Init. apply Z.leb_le in Ht. rewrite Ht. reflexivity. }
  split; [apply Hgen, Hfull|]. apply Hgen.
  rewrite run_ops_count by (try apply initial_state_inv; assumption).
  unfold SERVO_MAX_NUM. simpl. lia.
Qed.

(** C5. A call of [SERVO_Init] made while fewer than nine servos are
    registered returns the old [servo_count], writes the entry at that index
    with [ticks = 0] (and the port and pin as the bit-fields keep them),
    leaves the other entries alone, increments [servo_count], and calls
    [DIO_SetPinDirection(port, pin, OUTPUT)] then
    [DIO_SetPinValue(port, pin, LOW)].  When the old count is 0 these two
    calls are preceded by the installation of [SERVO_Interrupt] as compare-B
    callback and [TIMER1_SetTimerValue(0)]; when it is not 0, neither
    happens and callback slot and counter are unchanged. *)
Theorem SERVO_Init_success (s : state) (port pin : Z) :
  state_inv s ->
  servo_count s < SERVO_MAX_NUM ->
  let id := fst (SERVO_Init port pin s) in
  let s' := snd (SERVO_Init port pin s) in
  id = servo_count s /\
  servo_count s' = servo_count s + 1 /\
  servos s' = <[Z.to_nat (servo_count s) :=
                  Servo.mk (store_port port) (store_pin pin) 0]> (servos s) /\
  Servo.ticks (servo_at s' id) = 0 /\
  (forall j, 0 <= j < servo_count s -> servo_at s' j = servo_at s j) /\
  servo_id s' = servo_id s /\
  OCR1B s' = OCR1B s /\
  (servo_count s = 0 ->
     compb_callback s' = Some SERVO_Interrupt_isr /\ TCNT1 s' = 0 /\
     calls s' = calls s ++ [Call_TIMER1_SetCallback_COMPB SERVO_Interrupt_isr;
                            Call_TIMER1_SetTimerValue 0;
                            Call_DIO_SetPinDirection port pin OUTPUT;
                            Call_DIO_SetPinValue port pin LOW]) /\
  (servo_count s <> 0 ->
     compb_callback s' = compb_callback s /\ TCNT1 s' = TCNT1 s /\
     calls s' = calls s ++ [Call_DIO_SetPinDirection port pin OUTPUT;
                            Call_DIO_SetPinValue port pin LOW]).
Proof.
  intros Hs Hroom. pose proof (state_inv_elim s Hs) as (Hlen & _ & Hc & _).
  unfold SERVO_MAX_NUM in Hroom.
  assert (Hidx : (Z.to_nat (servo_count s) < length (servos s))%nat) by lia.
  unfold SERVO_Init, SERVO_MAX_NUM.
  destruct (9 <=? servo_count s) eqn:Hfull; [apply Z.leb_le in Hfull; lia|].
  destruct (servo_count s =? 0) eqn:Hz;
    [apply Z.eqb_eq in Hz | apply Z.eqb_neq in Hz];
    simpl; repeat split; try reflexivity; try (intros; lia);
    try (unfold u8; rewrite wrap_small; change (2 ^ 8) with 256; lia).
  - unfold servo_at. simpl. rewrite list_lookup_insert_eq by exact Hidx. reflexivity.
  - apply log_chain4.
  - unfold servo_at. simpl. rewrite list_lookup_insert_eq by exact Hidx. reflexivity.
  - intros j Hj. unfold servo_at. simpl.
    rewrite list_lookup_insert_ne by lia. reflexivity.
  - apply log_chain2.
Qed.

End Registration.

(** ** Setting the angle *)

Section SetAngle.
Variable F_CPU : Z.
Variable TIMER1_PRESCALER : Z.
Variable dbl : double_format.

Local Abbreviation US_TO_TICKS := (SERVO_US_TO_TICKS F_CPU TIMER1_PRESCALER).
Local Abbreviation SetAngleByID := (SERVO_SetAngleByID F_CPU TIMER1_PRESCALER dbl).
Local Abbreviation SetAngleByPin := (SERVO_SetAngleByPin F_CPU TIMER1_PRESCALER dbl).
Local Abbreviation Interrupt := (SERVO_Interrupt F_CPU TIMER1_PRESCALER).
Local Abbreviation pulse_ok := (pulse_inv F_CPU TIMER1_PRESCALER).

Lemma SERVO_SetAngleByID_guard (i angle : Z) (s : state) :
  (SERVO_MIN_ANGLE <=? angle) && (angle <=? SERVO_MAX_ANGLE) && (i <? servo_count s) = true
  <-> 0 <= angle <= 180 /\ i < servo_count s.
Proof.
  unfold SERVO_MIN_ANGLE, SERVO_MAX_ANGLE.
  rewrite !andb_true_iff, !Z.leb_le, Z.ltb_lt. tauto.
Qed.

Lemma SERVO_SetAngleByID_valid (s : state) (i angle : Z) :
  0 <= angle <= 180 /\ i < servo_count s ->
  SetAngleByID i angle s
  = set_servos (<[Z.to_nat i :=
                    Servo.mk (Servo.port (servo_at s i)) (Servo.pin (servo_at s i))
                             (angle_ticks F_CPU TIMER1_PRESCALER dbl angle)]> (servos s)) s.
Proof.
  intros Hv. apply SERVO_SetAngleByID_guard in Hv.
  unfold SERVO_SetAngleByID. rewrite Hv. reflexivity.
Qed.

Lemma SERVO_SetAngleByID_invalid (s : state) (i angle : Z) :
  ~ (0 <= angle <= 180 /\ i < servo_count s) -> SetAngleByID i angle s = s.
Proof.
  intros Hv. unfold SERVO_SetAngleByID.
  destruct ((SERVO_MIN_ANGLE <=? angle) && (angle <=? SERVO_MAX_ANGLE)
            && (i <? servo_count s)) eqn:Hg; [|reflexivity].
  apply SERVO_SetAngleByID_guard in Hg. contradiction.
Qed.

(** C6. [SERVO_SetAngleByID] changes something only when the angle is in
    [0, 180] and the id is below [servo_count]: then it rewrites the [ticks]
    field of that one entry.  For every other input the state returned is
    the state given (the function returns nothing, so no error is
    reported). *)
Theorem SERVO_SetAngleByID_validation (s : state) (i angle : Z) :
  (0 <= angle <= 180 /\ i < servo_count s ->
     SetAngleByID i angle s
     = set_servos (<[Z.to_nat i :=
                       Servo.mk (Servo.port (servo_at s i)) (Servo.pin (servo_at s i))
                                (angle_ticks F_CPU TIMER1_PRESCALER dbl angle)]> (servos s)) s) /\
  (~ (0 <= angle <= 180 /\ i < servo_count s) -> SetAngleByID i angle s = s).
Proof.
  split; [apply SERVO_SetAngleByID_valid | apply SERVO_SetAngleByID_invalid].
Qed.

Lemma SERVO_SetAngleByID_stored (s : state) (i angle : Z) :
  state_inv s -> 0 <= angle <= 180 -> 0 <= i < servo_count s ->
  Servo.ticks (servo_at (SetAngleByID i angle s) i)
  = angle_ticks F_CPU TIMER1_PRESCALER dbl angle.
Proof.
  intros Hs Ha Hi. pose proof (state_inv_elim s Hs) as (Hlen & _ & Hc & _).
  rewrite SERVO_SetAngleByID_valid by lia.
  unfold servo_at at 1. simpl.
  rewrite list_lookup_insert_eq by lia. reflexivity.
Qed.

Lemma SERVO_SetAngleByID_others (s : state) (i j angle : Z) :
  0 <= i -> 0 <= j -> i <> j -> servo_at (SetAngleByID i angle s) j = servo_at s j.
Proof.
  intros Hi Hj Hne. unfold SERVO_SetAngleByID. destruct (_ && _); [|reflexivity].
  apply servo_at_other; assumption.
Qed.

(** As in section [Ticks]: a 32-bit clock constant, a positive divisor. *)
Hypothesis F_CPU_range : 0 <= F_CPU < 2 ^ 32.
Hypothesis PRESCALER_pos : 0 < TIMER1_PRESCALER.

(** C8. The tick count stored for angle 0 is [SERVO_US_TO_TICKS(1000)] and
    the one stored for angle 180 is [SERVO_US_TO_TICKS(2000)], exactly, for
    either format of [double]. *)
Theorem SERVO_SetAngleByID_endpoints (s : state) (i : Z) :
  state_inv s ->
  0 <= i < servo_count s ->
  Servo.ticks (servo_at (SetAngleByID i 0 s) i) = US_TO_TICKS 1000 /\
  Servo.ticks (servo_at (SetAngleByID i 180 s) i) = US_TO_TICKS 2000.
Proof.
  intros Hs Hi. rewrite !SERVO_SetAngleByID_stored by (try assumption; lia).
  rewrite !angle_ticks_exact by (try assumption; lia).
  rewrite !microseconds_of_angle_exact by lia.
  split; reflexivity.
Qed.

(** C9. For angles [a1 <= a2] in [0, 180], the tick count stored for [a1]
    is at most the tick count stored for [a2]. *)
Theorem SERVO_SetAngleByID_monotone (s : state) (i a1 a2 : Z) :
  state_inv s ->
  0 <= i < servo_count s ->
  0 <= a1 -> a1 <= a2 -> a2 <= 180 ->
  Servo.ticks (servo_at (SetAngleByID i a1 s) i)
  <= Servo.ticks (servo_at (SetAngleByID i a2 s) i).
Proof.
  intros Hs Hi H0 H12 H2. rewrite !SERVO_SetAngleByID_stored by (try assumption; lia).
  rewrite !angle_ticks_exact by (try assumption; lia).
  pose proof (microseconds_of_angle_range dbl a1 ltac:(lia)) as R1.
  pose proof (microseconds_of_angle_range dbl a2 ltac:(lia)) as R2.
  pose proof (microseconds_of_angle_mono dbl a1 a2 H0 H12 H2) as Hm.
  apply SERVO_US_TO_TICKS_mono; try assumption; change (2 ^ 16) with 65536; lia.
Qed.

(** *** The pulse-width invariant *)

Lemma initial_pulse_inv : pulse_ok initial_state.
Proof. intros i Hi. simpl in Hi. lia. Qed.

Lemma SERVO_Init_pulse_inv (port pin : Z) (s : state) :
  state_inv s -> pulse_ok s -> pulse_ok (snd (SERVO_Init port pin s)).
Proof.
  intros Hs Hp. pose proof (state_inv_elim s Hs) as (Hlen & _ & Hc & _).
  destruct (Z_lt_le_dec (servo_count s) SERVO_MAX_NUM) as [Hroom|Hfull].
  - intros j Hj. rewrite SERVO_Init_count in Hj by exact Hs.
    unfold SERVO_MAX_NUM in Hroom.
    unfold servo_at. rewrite SERVO_Init_servos by exact Hroom.
    destruct (Z.eq_dec j (servo_count s)) as [->|Hne].
    + left. rewrite list_lookup_insert_eq by lia. reflexivity.
    + rewrite list_lookup_insert_ne by lia. apply Hp. lia.
  - unfold SERVO_Init. apply Z.leb_le in Hfull. rewrite Hfull. exact Hp.
Qed.

Lemma SERVO_SetAngleByID_pulse_inv (i angle : Z) (s : state) :
  0 <= i -> state_inv s -> pulse_ok s -> pulse_ok (SetAngleByID i angle s).
Proof.
  intros Hi Hs Hp j Hj.
  destruct (SERVO_SetAngleByID_globals F_CPU TIMER1_PRESCALER dbl i angle s) as (Hcnt & _).
  rewrite Hcnt in Hj.
  destruct (Z.eq_dec i j) as [<-|Hne].
  - destruct (Z_le_dec 0 angle) as [Ha0|Ha0]; [destruct (Z_le_dec angle 180) as [Ha1|Ha1]|].
    + right. rewrite SERVO_SetAngleByID_stored by (try assumption; lia).
      apply angle_ticks_bounds; try assumption. lia.
    + rewrite SERVO_SetAngleByID_invalid by lia. apply Hp, Hj.
    + rewrite SERVO_SetAngleByID_invalid by lia. apply Hp, Hj.
  - rewrite SERVO_SetAngleByID_others by lia. apply Hp, Hj.
Qed.

Lemma pulse_inv_registry (s s' : state) :
  servos s' = servos s -> servo_count s' = servo_count s -> pulse_ok s -> pulse_ok s'.
Proof.
  intros Hsv Hcnt Hp i Hi. unfold servo_at. rewrite Hsv. apply Hp. lia.
Qed.

Lemma SERVO_SetAngleByPin_fold_pulse_inv (port pin angle : Z) (ids : list Z) (s : state) :
  Forall (fun i => 0 <= i) ids ->
  state_inv s -> pulse_ok s ->
  pulse_ok (foldl (SERVO_SetAngleByPin_body F_CPU TIMER1_PRESCALER dbl port pin angle) s ids).
Proof.
  intros Hids. revert s. induction Hids as [|i ids Hi _ IH]; intros s Hs Hp; [exact Hp|].
  simpl. unfold SERVO_SetAngleByPin_body at 2.
  destruct (_ && _); [|apply IH; assumption].
  apply IH; [apply SERVO_SetAngleByID_inv, Hs|].
  apply SERVO_SetAngleByID_pulse_inv; assumption.
Qed.

Lemma index_range_nonneg (n : nat) : Forall (fun i => 0 <= i) (map Z.of_nat (seq 0 n)).
Proof.
  apply List.Forall_forall. intros i Hin. apply in_map_iff in Hin as (k & <- & _). lia.
Qed.

Lemma SERVO_SetAngleByPin_pulse_inv (port pin angle : Z) (s : state) :
  state_inv s -> pulse_ok s -> pulse_ok (SetAngleByPin port pin angle s).
Proof.
  intros Hs Hp. apply SERVO_SetAngleByPin_fold_pulse_inv; try assumption.
  apply index_range_nonneg.
Qed.

Lemma compare_match_pulse_inv (now : Z) (s : state) :
  pulse_ok s -> pulse_ok (compare_match F_CPU TIMER1_PRESCALER now s).
Proof.
  intros Hp. unfold compare_match. destruct (compb_callback s) as [[]|]; [|exact Hp].
  pose proof (SERVO_Interrupt_registry F_CPU TIMER1_PRESCALER (set_TCNT1 now s))
    as (Hsv & Hcnt & _).
  apply (pulse_inv_registry s); assumption.
Qed.

Lemma run_op_pulse_inv (s : state) (o : op) :
  op_ok o = true -> state_inv s -> pulse_ok s ->
  pulse_ok (run_op F_CPU TIMER1_PRESCALER dbl s o).
Proof.
  intros Ho Hs Hp. destruct o as [port pin|i angle|port pin angle|now]; simpl.
  - apply SERVO_Init_pulse_inv; assumption.
  - simpl in Ho. apply andb_true_iff in Ho as [Hi _].
    unfold is_u8 in Hi. apply andb_true_iff in Hi as [Hi _]. apply Z.leb_le in Hi.
    apply SERVO_SetAngleByID_pulse_inv; assumption.
  - apply SERVO_SetAngleByPin_pulse_inv; assumption.
  - apply compare_match_pulse_inv, Hp.
Qed.

Lemma run_ops_pulse_inv (ops : list op) (s : state) :
  forallb op_ok ops = true -> state_inv s -> pulse_ok s ->
  pulse_ok (run_ops F_CPU TIMER1_PRESCALER dbl ops s).
Proof.
  revert s. induction ops as [|o ops IH]; intros s Hok Hs Hp; [exact Hp|].
  simpl in Hok. apply andb_true_iff in Hok as [Ho Hok].
  unfold run_ops. simpl. apply IH; [exact Hok| |].
  - apply run_op_inv; assumption.
  - apply run_op_pulse_inv; assumption.
Qed.

(** C7. In every reachable state every registered servo has [ticks = 0] or
    [SERVO_US_TO_TICKS(1000) <= ticks <= SERVO_US_TO_TICKS(2000)], and each
    of [SERVO_Init], [SERVO_SetAngleByID], [SERVO_SetAngleByPin] and the
    interrupt handler keeps this true. *)
Theorem pulse_ticks_invariant :
  (forall s o, state_inv s -> op_ok o = true -> pulse_ok s ->
     pulse_ok (run_op F_CPU TIMER1_PRESCALER dbl s o)) /\
  (forall s i, reachable F_CPU TIMER1_PRESCALER dbl s ->
     0 <= i < servo_count s ->
     Servo.ticks (servo_at s i) = 0 \/
     US_TO_TICKS 1000 <= Servo.ticks (servo_at s i) <= US_TO_TICKS 2000).
Proof.
  split.
  - intros s o Hs Ho Hp. apply run_op_pulse_inv; assumption.
  - intros s i (ops & Hok & ->) Hi.
    apply (run_ops_pulse_inv ops initial_state Hok initial_state_inv initial_pulse_inv).
    exact Hi.
Qed.

End SetAngle.

(** ** The compare-match handler *)

Section Scheduler.
Variable F_CPU : Z.
Variable TIMER1_PRESCALER : Z.
Variable dbl : double_format.

Local Abbreviation INTERVAL := (SERVO_PWM_INTERVAL_TICKS F_CPU TIMER1_PRESCALER).
Local Abbreviation Interrupt := (SERVO_Interrupt F_CPU TIMER1_PRESCALER).
Local Abbreviation schedule := (SERVO_Interrupt_schedule F_CPU TIMER1_PRESCALER).
Local Abbreviation run := (run_ops F_CPU TIMER1_PRESCALER dbl).

Lemma advance_valid (s : state) :
  servo_id s < servo_count s ->
  SERVO_Interrupt_advance s
  = set_servo_id (u8 (servo_id s + 1)) (log (pulse_end s (servo_id s)) s).
Proof.
  intros H. unfold SERVO_Interrupt_advance. apply Z.ltb_lt in H. rewrite H. reflexivity.
Qed.

Lemma advance_reset (s : state) :
  servo_count s <= servo_id s ->
  SERVO_Interrupt_advance s
  = set_servo_id 0 (log (Call_TIMER1_SetTimerValue 0) (set_TCNT1 0 s)).
Proof.
  intros H. unfold SERVO_Interrupt_advance. apply Z.ltb_ge in H. rewrite H. reflexivity.
Qed.

Lemma schedule_pulse (s : state) :
  servo_id s < servo_count s ->
  servo_id (schedule s) = servo_id s /\
  TCNT1 (schedule s) = TCNT1 s /\
  calls (schedule s) = calls s ++ pulse_begin s (servo_id s) (TCNT1 s) /\
  OCR1B (schedule s)
  = if 0 <? Servo.ticks (servo_at s (servo_id s))
    then u16 (TCNT1 s + Servo.ticks (servo_at s (servo_id s))) else OCR1B s.
Proof.
  intros H. unfold SERVO_Interrupt_schedule, pulse_begin. apply Z.ltb_lt in H. rewrite H.
  destruct (0 <? Servo.ticks (servo_at s (servo_id s))); simpl.
  - rewrite log_chain2. repeat split; reflexivity.
  - rewrite app_nil_r. repeat split; reflexivity.
Qed.

Lemma schedule_frame_end (s : state) :
  servo_count s <= servo_id s ->
  servo_id (schedule s) = servo_id s /\
  TCNT1 (schedule s) = TCNT1 s /\
  calls (schedule s)
  = calls s ++ [Call_TIMER1_SetCompare_B_Value
                  (if u16 (TCNT1 s + 50) <? INTERVAL then u16 INTERVAL
                   else u16 (u16 (TCNT1 s + 20)))] /\
  OCR1B (schedule s)
  = if u16 (TCNT1 s + 50) <? INTERVAL then u16 INTERVAL else u16 (u16 (TCNT1 s + 20)).
Proof.
  intros H. unfold SERVO_Interrupt_schedule, TIMER1_GetTimerValue.
  apply Z.ltb_ge in H. rewrite H.
  destruct (u16 (TCNT1 s + 50) <? INTERVAL); simpl; repeat split; reflexivity.
Qed.


Lemma SERVO_Init_cursor (port pin : Z) (s : state) :
  servo_id (snd (SERVO_Init port pin s)) = servo_id s.
Proof.
  unfold SERVO_Init. destruct (SERVO_MAX_NUM <=? servo_count s); [reflexivity|].
  destruct (servo_count s =? 0); reflexivity.
Qed.

(** Foreground calls never touch the cursor of the handler. *)
Lemma foreground_cursor (ops : list op) (s : state) :
  forallb foreground ops = true -> servo_id (run ops s) = servo_id s.
Proof.
  revert s. induction ops as [|o ops IH]; intros s Hfg; [reflexivity|].
  simpl in Hfg. apply andb_true_iff in Hfg as [Ho Hfg].
  unfold run_ops. simpl. fold (run ops (run_op F_CPU TIMER1_PRESCALER dbl s o)).
  rewrite IH by exact Hfg.
  destruct o as [port pin|i angle|port pin angle|now]; simpl.
  - apply SERVO_Init_cursor.
  - apply SERVO_SetAngleByID_globals.
  - apply (SERVO_SetAngleByPin_fold_globals F_CPU TIMER1_PRESCALER dbl).
  - discriminate Ho.
Qed.

Lemma Interrupt_next (s : state) :
  state_inv s -> servo_id s < servo_count s ->
  servo_id (Interrupt s) = servo_id s + 1 /\
  TCNT1 (Interrupt s) = TCNT1 s /\
  exists rest, calls (Interrupt s) = calls s ++ pulse_end s (servo_id s) :: rest.
Proof.
  intros Hs Hlt. pose proof (state_inv_elim s Hs) as (_ & _ & Hc & Hid & _).
  assert (Hu : u8 (servo_id s + 1) = servo_id s + 1).
  { unfold u8. apply wrap_small. change (2 ^ 8) with 256. lia. }
  unfold SERVO_Interrupt. rewrite advance_valid by exact Hlt. rewrite Hu.
  set (s1 := set_servo_id (servo_id s + 1) (log (pulse_end s (servo_id s)) s)).
  destruct (Z_lt_le_dec (servo_id s1) (servo_count s1)) as [Hin|Hout].
  - destruct (schedule_pulse s1 Hin) as (H1 & H2 & H3 & _).
    rewrite H1, H2, H3. simpl. repeat split.
    exists (pulse_begin s1 (servo_id s + 1) (TCNT1 s)). rewrite <- app_assoc. reflexivity.
  - destruct (schedule_frame_end s1 Hout) as (H1 & H2 & H3 & _).
    rewrite H1, H2, H3. simpl. repeat split.
    eexists. rewrite <- app_assoc. reflexivity.
Qed.

Lemma Interrupt_reset (s : state) :
  servo_count s <= servo_id s ->
  servo_id (Interrupt s) = 0 /\
  TCNT1 (Interrupt s) = 0 /\
  exists rest, calls (Interrupt s) = calls s ++ Call_TIMER1_SetTimerValue 0 :: rest.
Proof.
  intros Hge. unfold SERVO_Interrupt. rewrite advance_reset by exact Hge.
  set (s1 := set_servo_id 0 (log (Call_TIMER1_SetTimerValue 0) (set_TCNT1 0 s))).
  destruct (Z_lt_le_dec (servo_id s1) (servo_count s1)) as [Hin|Hout].
  - destruct (schedule_pulse s1 Hin) as (H1 & H2 & H3 & _).
    rewrite H1, H2, H3. simpl. repeat split.
    eexists. rewrite <- app_assoc. reflexivity.
  - destruct (schedule_frame_end s1 Hout) as (H1 & H2 & H3 & _).
    rewrite H1, H2, H3. simpl. repeat split.
    eexists. rewrite <- app_assoc. reflexivity.
Qed.

(** C1. An invocation of [SERVO_Interrupt] with [servo_id < servo_count]
    first calls [DIO_SetPinValue(port, pin, LOW)] for the servo at the
    cursor, leaves the counter alone and returns with the cursor incremented
    by one; an invocation with [servo_id >= servo_count] first calls
    [TIMER1_SetTimerValue(0)] and returns with counter 0 and cursor 0.  The
    cursor is 0xFF at power-on and no foreground call changes it, while
    [servo_count] is at most 9: the first invocation of the handler takes
    the second branch. *)
Theorem SERVO_Interrupt_cursor (s : state) (ops : list op) (now : Z) :
  state_inv s ->
  forallb op_ok ops = true ->
  forallb foreground ops = true ->
  (servo_id s < servo_count s ->
     servo_id (Interrupt s) = servo_id s + 1 /\
     TCNT1 (Interrupt s) = TCNT1 s /\
     exists rest, calls (Interrupt s) = calls s ++ pulse_end s (servo_id s) :: rest) /\
  (servo_count s <= servo_id s ->
     servo_id (Interrupt s) = 0 /\
     TCNT1 (Interrupt s) = 0 /\
     exists rest, calls (Interrupt s) = calls s ++ Call_TIMER1_SetTimerValue 0 :: rest) /\
  servo_id initial_state = 255 /\
  (let s0 := set_TCNT1 now (run ops initial_state) in
   servo_id s0 = 255 /\ servo_count s0 <= 9 /\
   servo_id (Interrupt s0) = 0 /\ TCNT1 (Interrupt s0) = 0 /\
   exists rest, calls (Interrupt s0) = calls s0 ++ Call_TIMER1_SetTimerValue 0 :: rest).
Proof.
  intros Hs Hok Hfg. split; [|split; [|split]].
  - intros Hlt. apply Interrupt_next; assumption.
  - intros Hge. apply Interrupt_reset; assumption.
  - reflexivity.
  - pose proof (run_ops_inv F_CPU TIMER1_PRESCALER dbl ops initial_state Hok initial_state_inv)
      as Hinv.
    pose proof (state_inv_elim _ Hinv) as (_ & _ & Hc & _).
    pose proof (foreground_cursor ops initial_state Hfg) as Hcur.
    change (servo_id initial_state) with 255 in Hcur.
    intros s0.
    assert (Hid0 : servo_id s0 = 255) by exact Hcur.
    assert (Hc0 : servo_count s0 <= 9) by (apply Hc).
    split; [exact Hid0|]. split; [exact Hc0|].
    apply (Interrupt_reset s0). lia.
Qed.

Lemma u16_small (x : Z) : 0 <= x <= 65535 -> u16 x = x.
Proof. intros H. unfold u16. apply wrap_small. change (2 ^ 16) with 65536. lia. Qed.


(** *** One frame *)

Lemma servo_at_ext (a b : state) (i : Z) : servos a = servos b -> servo_at a i = servo_at b i.
Proof. intros H. unfold servo_at. rewrite H. reflexivity. Qed.

Lemma pulse_end_ext (a b : state) (i : Z) : servos a = servos b -> pulse_end a i = pulse_end b i.
Proof. intros H. unfold pulse_end. rewrite (servo_at_ext a b i H). reflexivity. Qed.

Lemma pulse_begin_ext (a b : state) (i now : Z) :
  servos a = servos b -> pulse_begin a i now = pulse_begin b i now.
Proof. intros H. unfold pulse_begin. rewrite (servo_at_ext a b i H). reflexivity. Qed.

(** The handler ends the pulse of the servo at the cursor and lands on the
    next servo. *)
Lemma Interrupt_land (t : state) :
  state_inv t -> servo_id t < servo_count t -> servo_id t + 1 < servo_count t ->
  servo_id (Interrupt t) = servo_id t + 1 /\
  calls (Interrupt t)
  = calls t ++ pulse_end t (servo_id t) :: pulse_begin t (servo_id t + 1) (TCNT1 t) /\
  OCR1B (Interrupt t)
  = if 0 <? Servo.ticks (servo_at t (servo_id t + 1))
    then u16 (TCNT1 t + Servo.ticks (servo_at t (servo_id t + 1))) else OCR1B t.
Proof.
  intros Ht Hlt Hnext. pose proof (state_inv_elim t Ht) as (_ & _ & Hc & Hid & _).
  assert (Hu : u8 (servo_id t + 1) = servo_id t + 1).
  { unfold u8. apply wrap_small. change (2 ^ 8) with 256. lia. }
  unfold SERVO_Interrupt. rewrite advance_valid by exact Hlt. rewrite Hu.
  set (t1 := set_servo_id (servo_id t + 1) (log (pulse_end t (servo_id t)) t)).
  assert (Hin : servo_id t1 < servo_count t1) by exact Hnext.
  destruct (schedule_pulse t1 Hin) as (H1 & _ & H3 & H4).
  rewrite H1, H3, H4. cbn [t1 servo_id set_servo_id log calls TCNT1 OCR1B].
  rewrite <- app_assoc.
  rewrite (pulse_begin_ext t1 t) by reflexivity.
  rewrite (servo_at_ext t1 t) by reflexivity.
  repeat split; reflexivity.
Qed.

(** At the start of a frame the handler resets the counter and lands on
    servo 0. *)
Lemma Interrupt_land_first (t : state) :
  servo_count t <= servo_id t -> 0 < servo_count t ->
  servo_id (Interrupt t) = 0 /\
  calls (Interrupt t) = calls t ++ Call_TIMER1_SetTimerValue 0 :: pulse_begin t 0 0 /\
  OCR1B (Interrupt t)
  = if 0 <? Servo.ticks (servo_at t 0)
    then u16 (0 + Servo.ticks (servo_at t 0)) else OCR1B t.
Proof.
  intros Hge Hpos. unfold SERVO_Interrupt. rewrite advance_reset by exact Hge.
  set (t1 := set_servo_id 0 (log (Call_TIMER1_SetTimerValue 0) (set_TCNT1 0 t))).
  assert (Hin : servo_id t1 < servo_count t1) by exact Hpos.
  destruct (schedule_pulse t1 Hin) as (H1 & _ & H3 & H4).
  rewrite H1, H3, H4. cbn [t1 servo_id set_servo_id log set_TCNT1 calls TCNT1 OCR1B].
  rewrite <- app_assoc.
  rewrite (pulse_begin_ext t1 t) by reflexivity.
  rewrite (servo_at_ext t1 t) by reflexivity.
  repeat split; reflexivity.
Qed.

Local Abbreviation interrupts := (run_interrupts F_CPU TIMER1_PRESCALER).

Lemma run_interrupts_snoc (nows : list Z) (now : Z) (s : state) :
  interrupts (nows ++ [now]) s = Interrupt (set_TCNT1 now (interrupts nows s)).
Proof. unfold run_interrupts. rewrite foldl_app. reflexivity. Qed.

Lemma run_interrupts_inv (nows : list Z) (s : state) :
  forallb is_u16 nows = true -> state_inv s -> state_inv (interrupts nows s).
Proof.
  revert s. induction nows as [|now nows IH]; intros s Hn Hs; [exact Hs|].
  simpl in Hn. apply andb_true_iff in Hn as [Hnow Hn].
  unfold run_interrupts. simpl. apply IH; [exact Hn|].
  apply SERVO_Interrupt_inv, set_TCNT1_inv; assumption.
Qed.

Lemma run_interrupts_registry (nows : list Z) (s : state) :
  servos (interrupts nows s) = servos s /\
  servo_count (interrupts nows s) = servo_count s.
Proof.
  revert s. induction nows as [|now nows IH]; intros s; [split; reflexivity|].
  unfold run_interrupts. simpl.
  destruct (IH (Interrupt (set_TCNT1 now s))) as [H1 H2].
  unfold run_interrupts in H1, H2. rewrite H1, H2.
  destruct (SERVO_Interrupt_registry F_CPU TIMER1_PRESCALER (set_TCNT1 now s)) as (E1 & E2 & _).
  rewrite E1, E2. split; reflexivity.
Qed.

(** From the start of a frame, the [k+1]-th invocation leaves the cursor
    on index [k], whatever the pulse widths are. *)
Lemma run_interrupts_cursor (nows : list Z) (s : state) (k : nat) :
  state_inv s -> servo_count s <= servo_id s ->
  forallb is_u16 nows = true ->
  length nows = S k -> Z.of_nat k <= servo_count s ->
  servo_id (interrupts nows s) = Z.of_nat k.
Proof.
  intros Hs Hstart. revert k.
  induction nows as [|now nows IH] using rev_ind; intros k Hn Hlen Hk; [discriminate Hlen|].
  rewrite forallb_app in Hn. apply andb_true_iff in Hn as [Hn Hnow].
  simpl in Hnow. rewrite andb_true_r in Hnow.
  rewrite length_app in Hlen. simpl in Hlen.
  rewrite run_interrupts_snoc.
  destruct k as [|k].
  - destruct nows; [|simpl in Hlen; lia].
    apply Interrupt_reset. exact Hstart.
  - specialize (IH k Hn ltac:(lia) ltac:(lia)).
    pose proof (run_interrupts_inv nows s Hn Hs) as Hinv.
    destruct (run_interrupts_registry nows s) as [_ Hcnt].
    set (t := set_TCNT1 now (interrupts nows s)).
    assert (Ht : state_inv t) by (apply set_TCNT1_inv; assumption).
    assert (Hlt : servo_id t < servo_count t).
    { change (servo_id (interrupts nows s) < servo_count (interrupts nows s)).
      rewrite IH, Hcnt. lia. }
    destruct (Interrupt_next t Ht Hlt) as (Hid & _).
    rewrite Hid. change (servo_id t) with (servo_id (interrupts nows s)).
    rewrite IH. lia.
Qed.

(** X16. The walk of the cursor through one frame.  In a frame (a run of
    handler invocations that starts with the cursor out of range and is not
    interleaved with foreground calls), the invocation number [k+1] lands
    on servo [k], for every registered [k] and whatever the [ticks] of the
    servos before it.  If [ticks] of servo [k] is 0, this invocation makes
    no call beyond the one that ended the previous pulse (or reset the
    counter): no pin is driven HIGH and the compare register is left as it
    was.  If [ticks] is positive, it sets the compare register to the
    counter value plus [ticks] and drives the pin of servo [k] HIGH. *)
Lemma zero_width_servo_skipped (s : state) (nows : list Z) (now k : Z) :
  state_inv s ->
  servo_count s <= servo_id s ->
  forallb is_u16 nows = true ->
  is_u16 now = true ->
  k = Z.of_nat (length nows) ->
  k < servo_count s ->
  let s_k := interrupts nows s in
  let s' := Interrupt (set_TCNT1 now s_k) in
  let first := if k =? 0 then Call_TIMER1_SetTimerValue 0 else pulse_end s (k - 1) in
  let t := if k =? 0 then 0 else now in
  servo_id s' = k /\
  servos s' = servos s /\
  servo_count s' = servo_count s /\
  (Servo.ticks (servo_at s k) = 0 ->
     calls s' = calls s_k ++ [first] /\ OCR1B s' = OCR1B s_k) /\
  (0 < Servo.ticks (servo_at s k) ->
     calls s' = calls s_k ++
                [first;
                 Call_TIMER1_SetCompare_B_Value (u16 (t + Servo.ticks (servo_at s k)));
                 Call_DIO_SetPinValue (Servo.port (servo_at s k))
                                      (Servo.pin (servo_at s k)) HIGH] /\
     OCR1B s' = u16 (t + Servo.ticks (servo_at s k))).
Proof.
  intros Hs Hstart Hn Hnow Hk Hlt s_k s' first t.
  destruct (run_interrupts_registry nows s) as [Hsv Hcnt]. fold s_k in Hsv, Hcnt.
  pose proof (run_interrupts_inv nows s Hn Hs) as Hinv. fold s_k in Hinv.
  set (u := set_TCNT1 now s_k).
  assert (Hu : state_inv u) by (apply set_TCNT1_inv; assumption).
  assert (Husv : servos u = servos s) by exact Hsv.
  destruct (SERVO_Interrupt_registry F_CPU TIMER1_PRESCALER u) as (E1 & E2 & _).
  assert (Hmain :
    servo_id s' = k /\
    calls s' = calls s_k ++ first :: pulse_begin s k t /\
    OCR1B s' = if 0 <? Servo.ticks (servo_at s k)
               then u16 (t + Servo.ticks (servo_at s k)) else OCR1B s_k).
  { destruct (length nows) as [|j] eqn:Hlen.
    - assert (k = 0) as -> by lia.
      destruct (Interrupt_land_first u) as (H1 & H2 & H3).
      + change (servo_count s_k <= servo_id s_k).
        destruct nows; [exact Hstart|discriminate Hlen].
      + change (0 < servo_count s_k). lia.
      + rewrite (pulse_begin_ext u s) in H2 by exact Husv.
        rewrite (servo_at_ext u s) in H3 by exact Husv.
        subst s' first t. fold u. cbn [Z.eqb].
        rewrite H1, H2, H3. repeat split; reflexivity.
    - pose proof (run_interrupts_cursor nows s j Hs Hstart Hn Hlen ltac:(lia)) as Hcur.
      fold s_k in Hcur.
      assert (Hk0 : (k =? 0) = false) by (apply Z.eqb_neq; lia).
      destruct (Interrupt_land u Hu) as (H1 & H2 & H3).
      + change (servo_id s_k < servo_count s_k). lia.
      + change (servo_id s_k + 1 < servo_count s_k). lia.
      + change (servo_id u) with (servo_id s_k) in H1, H2, H3.
        rewrite Hcur in H1, H2, H3.
        replace (Z.of_nat j + 1) with k in H1, H2, H3 by lia.
        replace (Z.of_nat j) with (k - 1) in H2 by lia.
        rewrite (pulse_begin_ext u s), (pulse_end_ext u s) in H2 by exact Husv.
        rewrite (servo_at_ext u s) in H3 by exact Husv.
        subst s' first t. fold u. rewrite Hk0.
        rewrite H1, H2, H3. repeat split; reflexivity. }
  destruct Hmain as (M1 & M2 & M3).
  split; [exact M1|].
  split; [exact (eq_trans E1 Husv)|].
  split; [exact (eq_trans E2 Hcnt)|].
  unfold pulse_begin in M2. split.
  - intros Hz. rewrite Hz in M2, M3. simpl in M2, M3. split; assumption.
  - intros Hpos. apply Z.ltb_lt in Hpos. rewrite Hpos in M2, M3. split; assumption.
Qed.

(** *** Bit-field truncation of port and pin *)

Lemma SERVO_SetAngleByPin_no_match (port pin angle : Z) (ids : list Z) (s : state) :
  state_inv s -> 4 <= port \/ 8 <= pin ->
  foldl (SERVO_SetAngleByPin_body F_CPU TIMER1_PRESCALER dbl port pin angle) s ids = s.
Proof.
  intros Hs Hbig. pose proof (state_inv_elim s Hs) as (_ & Hfit & _).
  induction ids as [|i ids IH]; [reflexivity|].
  simpl. unfold SERVO_SetAngleByPin_body at 2.
  pose proof (servo_fits_elim _ (servo_at_fits s i Hfit)) as (Hp & Hq & _).
  destruct (andb _ _) eqn:Hm; [|exact IH].
  apply andb_true_iff in Hm as [Hm1 Hm2].
  apply Z.eqb_eq in Hm1, Hm2. lia.
Qed.

Lemma SERVO_SetAngleByID_port_pin (i j angle : Z) (s : state) :
  0 <= i -> 0 <= j ->
  Servo.port (servo_at (SERVO_SetAngleByID F_CPU TIMER1_PRESCALER dbl i angle s) j)
  = Servo.port (servo_at s j) /\
  Servo.pin (servo_at (SERVO_SetAngleByID F_CPU TIMER1_PRESCALER dbl i angle s) j)
  = Servo.pin (servo_at s j).
Proof.
  intros Hi Hj. destruct (Z.eq_dec i j) as [<-|Hne].
  - unfold SERVO_SetAngleByID. destruct (andb _ _); [|split; reflexivity].
    destruct (Nat.lt_ge_cases (Z.to_nat i) (length (servos s))) as [Hin|Hout].
    + rewrite servo_at_written by exact Hin. split; reflexivity.
    + unfold set_servos, servo_at. simpl. rewrite list_insert_ge by exact Hout.
      split; reflexivity.
  - rewrite SERVO_SetAngleByID_others by assumption. split; reflexivity.
Qed.

Lemma SERVO_SetAngleByPin_fold_port_pin (port pin angle j : Z) (ids : list Z) (s : state) :
  Forall (fun i => 0 <= i) ids -> 0 <= j ->
  let s' := foldl (SERVO_SetAngleByPin_body F_CPU TIMER1_PRESCALER dbl port pin angle) s ids in
  Servo.port (servo_at s' j) = Servo.port (servo_at s j) /\
  Servo.pin (servo_at s' j) = Servo.pin (servo_at s j).
Proof.
  intros Hids Hj. revert s. induction Hids as [|i ids Hi _ IH]; intros s; [split; reflexivity|].
  simpl. destruct (IH (SERVO_SetAngleByPin_body F_CPU TIMER1_PRESCALER dbl port pin angle s i))
    as [H1 H2].
  rewrite H1, H2. unfold SERVO_SetAngleByPin_body.
  destruct (andb _ _); [|split; reflexivity].
  apply SERVO_SetAngleByID_port_pin; assumption.
Qed.

(** A lookup with the recorded port and pin of the last registered servo
    finds it. *)
Lemma SERVO_SetAngleByPin_last (s : state) (angle : Z) :
  state_inv s -> 0 < servo_count s -> 0 <= angle <= 180 ->
  Servo.ticks
    (servo_at
       (SERVO_SetAngleByPin F_CPU TIMER1_PRESCALER dbl
          (Servo.port (servo_at s (servo_count s - 1)))
          (Servo.pin (servo_at s (servo_count s - 1))) angle s)
       (servo_count s - 1))
  = angle_ticks F_CPU TIMER1_PRESCALER dbl angle.
Proof.
  intros Hs Hpos Ha. set (id := servo_count s - 1).
  unfold SERVO_SetAngleByPin.
  replace (Z.to_nat (servo_count s)) with (S (Z.to_nat id)) by lia.
  rewrite seq_S, map_app, foldl_app. simpl.
  rewrite Z2Nat.id by lia.
  set (body := SERVO_SetAngleByPin_body F_CPU TIMER1_PRESCALER dbl
                 (Servo.port (servo_at s id)) (Servo.pin (servo_at s id)) angle).
  set (s1 := foldl body s (map Z.of_nat (seq 0 (Z.to_nat id)))).
  assert (Hs1 : state_inv s1) by (apply SERVO_SetAngleByPin_fold_inv, Hs).
  destruct (SERVO_SetAngleByPin_fold_globals F_CPU TIMER1_PRESCALER dbl
              (Servo.port (servo_at s id)) (Servo.pin (servo_at s id)) angle
              (map Z.of_nat (seq 0 (Z.to_nat id))) s) as (Hcnt & _).
  destruct (SERVO_SetAngleByPin_fold_port_pin
              (Servo.port (servo_at s id)) (Servo.pin (servo_at s id)) angle id
              (map Z.of_nat (seq 0 (Z.to_nat id))) s) as [Hp Hq];
    [apply index_range_nonneg | lia |].
  fold body in Hcnt, Hp, Hq. fold s1 in Hcnt, Hp, Hq.
  unfold body at 1, SERVO_SetAngleByPin_body.
  rewrite Hp, Hq, !Z.eqb_refl. simpl.
  apply SERVO_SetAngleByID_stored; [exact Hs1|exact Ha|]. rewrite Hcnt. lia.
Qed.

End Scheduler.

(** ** The sample history, evaluated *)

Ltac by_eval := vm_compute; reflexivity.
Ltac by_leb := first [apply Z.leb_le | apply Z.ltb_lt]; vm_compute; reflexivity.

Example demo_state_servos :
  firstn 3 (servos demo_state)
  = [Servo.mk 0 0 1000; Servo.mk 1 3 0; Servo.mk 2 1 2000].
Proof. by_eval. Qed.

Example demo_state_cursor : servo_id demo_state = 255 /\ servo_count demo_state = 3.
Proof. split; by_eval. Qed.

Example demo_interval : SERVO_PWM_INTERVAL_TICKS demo_F_CPU demo_PRESCALER = 20000.
Proof. by_eval. Qed.

(** The macro [SERVO_MAX_PULSE_TICKS] is derived from
    [SERVO_MAX_PULSE_US = 200]; the driver itself never uses it. *)
Example demo_max_pulse_macro :
  SERVO_MAX_PULSE_TICKS demo_F_CPU demo_PRESCALER = 200 /\
  SERVO_MIN_PULSE_TICKS demo_F_CPU demo_PRESCALER = 1000.
Proof. split; by_eval. Qed.

(** The calls of one frame over the three servos, entered at counter
    values 7, 1000, 1000 and 3000 (the third invocation is entered at 1000
    again: nothing was programmed for servo 1, so the counter has to come
    round to the old compare value).  Servo 1 is never driven HIGH. *)
Example demo_frame_calls :
  calls_since demo_state
    (run_interrupts demo_F_CPU demo_PRESCALER [7; 1000; 1000; 3000] demo_state)
  = [Call_TIMER1_SetTimerValue 0;
     Call_TIMER1_SetCompare_B_Value 1000; Call_DIO_SetPinValue 0 0 HIGH;
     Call_DIO_SetPinValue 0 0 LOW;
     Call_DIO_SetPinValue 1 3 LOW;
     Call_TIMER1_SetCompare_B_Value 3000; Call_DIO_SetPinValue 2 1 HIGH;
     Call_DIO_SetPinValue 2 1 LOW;
     Call_TIMER1_SetCompare_B_Value 20000].
Proof. by_eval. Qed.

Lemma SERVO_Interrupt_cursor_witness :
  state_inv demo_state /\
  forallb op_ok demo_ops = true /\
  forallb foreground demo_ops = true /\
  servo_id (SERVO_Interrupt demo_F_CPU demo_PRESCALER (set_TCNT1 7 demo_state)) = 0 /\
  TCNT1 (SERVO_Interrupt demo_F_CPU demo_PRESCALER (set_TCNT1 7 demo_state)) = 0.
Proof.
  assert (H1 : state_inv demo_state) by by_eval.
  assert (H2 : forallb op_ok demo_ops = true) by by_eval.
  assert (H3 : forallb foreground demo_ops = true) by by_eval.
  pose proof (SERVO_Interrupt_cursor demo_F_CPU demo_PRESCALER Binary32
                demo_state demo_ops 7 H1 H2 H3) as (_ & _ & _ & W).
  cbv zeta in W. destruct W as (_ & _ & W1 & W2 & _).
  exact (conj H1 (conj H2 (conj H3 (conj W1 W2)))).
Defined.

(** C2. The sample registry has [ticks] 1000, 0 and 2000.  The frame starts
    with the counter reset and the pulse of servo 0; the compare match at
    1000 ends that pulse and moves the cursor to servo 1, whose [ticks] is
    0: the handler returns without driving a pin HIGH and without a call
    of [TIMER1_SetCompare_B_Value].  The compare register still holds 1000,
    the value the counter has just reached, so the next compare match is a
    whole period of the 16-bit counter away, 65536 ticks, while the frame
    lasts 20000 ticks: servo 2, whose [ticks] is 2000, is not served within
    the frame. *)
Theorem zero_width_servo_stalls :
  let s1 := run_interrupts demo_F_CPU demo_PRESCALER [0; 1000] demo_state in
  servo_id s1 = 1 /\
  Servo.ticks (servo_at s1 1) = 0 /\
  Servo.ticks (servo_at s1 2) = 2000 /\
  calls_since demo_state s1
  = [Call_TIMER1_SetTimerValue 0;
     Call_TIMER1_SetCompare_B_Value 1000; Call_DIO_SetPinValue 0 0 HIGH;
     Call_DIO_SetPinValue 0 0 LOW] /\
  OCR1B s1 = 1000 /\
  TCNT1 s1 = 1000 /\
  ticks_to_compare_match s1 = 65536 /\
  SERVO_PWM_INTERVAL_TICKS demo_F_CPU demo_PRESCALER = 20000.
Proof. cbv zeta. repeat split; by_eval. Qed.



Lemma SERVO_Init_registry_full_witness :
  SERVO_MAX_NUM <= servo_count demo_full /\
  forallb op_ok demo_nine = true /\
  9 <= count_inits demo_nine /\
  SERVO_Init 1 1 demo_full = (255, demo_full).
Proof.
  assert (H1 : SERVO_MAX_NUM <= servo_count demo_full) by by_leb.
  assert (H2 : forallb op_ok demo_nine = true) by by_eval.
  assert (H3 : 9 <= count_inits demo_nine) by by_leb.
  destruct (SERVO_Init_registry_full demo_F_CPU demo_PRESCALER Binary32
              demo_full demo_nine 1 1 H1 H2 H3) as [W _].
  exact (conj H1 (conj H2 (conj H3 W))).
Defined.

Lemma SERVO_Init_success_witness :
  state_inv initial_state /\
  servo_count initial_state < SERVO_MAX_NUM /\
  fst (SERVO_Init 2 9 initial_state) = 0 /\
  servo_count (snd (SERVO_Init 2 9 initial_state)) = 1 /\
  calls (snd (SERVO_Init 2 9 initial_state))
  = [Call_TIMER1_SetCallback_COMPB SERVO_Interrupt_isr; Call_TIMER1_SetTimerValue 0;
     Call_DIO_SetPinDirection 2 9 OUTPUT; Call_DIO_SetPinValue 2 9 LOW].
Proof.
  assert (H1 : state_inv initial_state) by by_eval.
  assert (H2 : servo_count initial_state < SERVO_MAX_NUM) by by_leb.
  pose proof (SERVO_Init_success initial_state 2 9 H1 H2) as W.
  cbv zeta in W. destruct W as (W1 & W2 & _ & _ & _ & _ & _ & W3 & _).
  destruct (W3 eq_refl) as (_ & _ & W4).
  exact (conj H1 (conj H2 (conj W1 (conj W2 W4)))).
Defined.

Lemma SERVO_SetAngleByID_validation_witness :
  ~ (0 <= 200 <= 180 /\ 1 < servo_count demo_state) /\
  SERVO_SetAngleByID demo_F_CPU demo_PRESCALER Binary32 1 200 demo_state = demo_state.
Proof.
  assert (H1 : ~ (0 <= 200 <= 180 /\ 1 < servo_count demo_state)).
  { intros [[_ H] _]. revert H. apply Z.lt_nge. reflexivity. }
  split; [exact H1|].
  apply (proj2 (SERVO_SetAngleByID_validation demo_F_CPU demo_PRESCALER Binary32
                  demo_state 1 200)).
  exact H1.
Defined.

Lemma pulse_ticks_invariant_witness :
  0 <= demo_F_CPU < 2 ^ 32 /\
  0 < demo_PRESCALER /\
  reachable demo_F_CPU demo_PRESCALER Binary32 demo_state /\
  (Servo.ticks (servo_at demo_state 2) = 0 \/
   SERVO_US_TO_TICKS demo_F_CPU demo_PRESCALER 1000
   <= Servo.ticks (servo_at demo_state 2)
   <= SERVO_US_TO_TICKS demo_F_CPU demo_PRESCALER 2000).
Proof.
  assert (H1 : 0 <= demo_F_CPU < 2 ^ 32) by (split; by_leb).
  assert (H2 : 0 < demo_PRESCALER) by by_leb.
  assert (H3 : reachable demo_F_CPU demo_PRESCALER Binary32 demo_state).
  { exists demo_ops. split; by_eval. }
  assert (H4 : 0 <= 2 < servo_count demo_state) by (split; by_leb).
  refine (conj H1 (conj H2 (conj H3 _))).
  exact (proj2 (pulse_ticks_invariant demo_F_CPU demo_PRESCALER Binary32 H1 H2)
               demo_state 2 H3 H4).
Defined.

Lemma SERVO_SetAngleByID_endpoints_witness :
  0 <= demo_F_CPU < 2 ^ 32 /\
  0 < demo_PRESCALER /\
  state_inv demo_one /\
  0 <= 0 < servo_count demo_one /\
  Servo.ticks (servo_at (SERVO_SetAngleByID demo_F_CPU demo_PRESCALER Binary64 0 0 demo_one) 0)
  = SERVO_US_TO_TICKS demo_F_CPU demo_PRESCALER 1000 /\
  Servo.ticks (servo_at (SERVO_SetAngleByID demo_F_CPU demo_PRESCALER Binary64 0 180 demo_one) 0)
  = SERVO_US_TO_TICKS demo_F_CPU demo_PRESCALER 2000.
Proof.
  assert (H1 : 0 <= demo_F_CPU < 2 ^ 32) by (split; by_leb).
  assert (H2 : 0 < demo_PRESCALER) by by_leb.
  assert (H3 : state_inv demo_one) by by_eval.
  assert (H4 : 0 <= 0 < servo_count demo_one) by (split; by_leb).
  destruct (SERVO_SetAngleByID_endpoints demo_F_CPU demo_PRESCALER Binary64 H1 H2
              demo_one 0 H3 H4) as [W1 W2].
  exact (conj H1 (conj H2 (conj H3 (conj H4 (conj W1 W2))))).
Defined.

Lemma SERVO_SetAngleByID_monotone_witness :
  0 <= demo_F_CPU < 2 ^ 32 /\
  0 < demo_PRESCALER /\
  state_inv demo_one /\
  0 <= 0 < servo_count demo_one /\
  0 <= 30 /\ 30 <= 120 /\ 120 <= 180 /\
  Servo.ticks (servo_at (SERVO_SetAngleByID demo_F_CPU demo_PRESCALER Binary32 0 30 demo_one) 0)
  <= Servo.ticks (servo_at (SERVO_SetAngleByID demo_F_CPU demo_PRESCALER Binary32 0 120 demo_one) 0).
Proof.
  assert (H1 : 0 <= demo_F_CPU < 2 ^ 32) by (split; by_leb).
  assert (H2 : 0 < demo_PRESCALER) by by_leb.
  assert (H3 : state_inv demo_one) by by_eval.
  assert (H4 : 0 <= 0 < servo_count demo_one) by (split; by_leb).
  pose proof (SERVO_SetAngleByID_monotone demo_F_CPU demo_PRESCALER Binary32 H1 H2
                demo_one 0 30 120 H3 H4 ltac:(lia) ltac:(lia) ltac:(lia)) as W.
  refine (conj H1 (conj H2 (conj H3 (conj H4 (conj _ (conj _ (conj _ W))))))); lia.
Defined.


(** * Further properties of the driver *)

Section Lookup.
Variable F_CPU : Z.
Variable TIMER1_PRESCALER : Z.
Variable dbl : double_format.

Local Abbreviation SetAngleByID := (SERVO_SetAngleByID F_CPU TIMER1_PRESCALER dbl).
Local Abbreviation SetAngleByPin := (SERVO_SetAngleByPin F_CPU TIMER1_PRESCALER dbl).
Local Abbreviation body := (SERVO_SetAngleByPin_body F_CPU TIMER1_PRESCALER dbl).

Lemma body_other (port pin angle i j : Z) (s : state) :
  0 <= i -> 0 <= j -> i <> j ->
  servo_at (body port pin angle s i) j = servo_at s j.
Proof.
  intros Hi Hj Hne. unfold SERVO_SetAngleByPin_body.
  destruct (andb _ _); [|reflexivity].
  apply SERVO_SetAngleByID_others; assumption.
Qed.

Lemma body_no_match (port pin angle i : Z) (s : state) :
  pin_matches port pin (servo_at s i) = false -> body port pin angle s i = s.
Proof.
  intros Hm. unfold SERVO_SetAngleByPin_body. unfold pin_matches in Hm.
  rewrite Hm. reflexivity.
Qed.

(** An index the loop does not visit, or whose entry does not match,
    keeps its entry. *)
Lemma fold_miss (port pin angle j : Z) (ids : list Z) (s : state) :
  Forall (fun i => 0 <= i) ids -> 0 <= j ->
  ~ In j ids \/ pin_matches port pin (servo_at s j) = false ->
  servo_at (foldl (body port pin angle) s ids) j = servo_at s j.
Proof.
  intros Hids Hj. revert s.
  induction Hids as [|i ids Hi _ IH]; intros s Hcase; [reflexivity|].
  simpl.
  assert (Hstep : servo_at (body port pin angle s i) j = servo_at s j).
  { destruct (Z.eq_dec i j) as [->|Hne].
    - destruct Hcase as [Hnot|Hm].
      + exfalso. apply Hnot. left. reflexivity.
      + rewrite body_no_match by exact Hm. reflexivity.
    - apply body_other; assumption. }
  rewrite IH; [exact Hstep|].
  destruct Hcase as [Hnot|Hm].
  - left. intros Hin. apply Hnot. right. exact Hin.
  - right. rewrite Hstep. exact Hm.
Qed.

Lemma body_count (port pin angle i : Z) (s : state) :
  servo_count (body port pin angle s i) = servo_count s.
Proof.
  unfold SERVO_SetAngleByPin_body. destruct (andb _ _); [|reflexivity].
  apply SERVO_SetAngleByID_globals.
Qed.

Lemma body_inv (port pin angle i : Z) (s : state) :
  state_inv s -> state_inv (body port pin angle s i).
Proof.
  intros Hs. unfold SERVO_SetAngleByPin_body. destruct (andb _ _); [|exact Hs].
  apply SERVO_SetAngleByID_inv, Hs.
Qed.

(** An index the loop visits and whose entry matches gets the new ticks. *)
Lemma fold_hit (port pin angle : Z) (n a : nat) (m : nat) (s : state) :
  state_inv s -> 0 <= angle <= 180 ->
  Z.of_nat (a + n) <= servo_count s ->
  (a <= m < a + n)%nat ->
  pin_matches port pin (servo_at s (Z.of_nat m)) = true ->
  servo_at (foldl (body port pin angle) s (map Z.of_nat (seq a n))) (Z.of_nat m)
  = Servo.mk (Servo.port (servo_at s (Z.of_nat m))) (Servo.pin (servo_at s (Z.of_nat m)))
             (angle_ticks F_CPU TIMER1_PRESCALER dbl angle).
Proof.
  intros Hs Ha. revert a s Hs.
  induction n as [|n IH]; intros a s Hs Hbound Hm Hmatch; [lia|].
  simpl. destruct (Nat.eq_dec m a) as [->|Hne].
  - rewrite fold_miss.
    + unfold SERVO_SetAngleByPin_body. unfold pin_matches in Hmatch. rewrite Hmatch.
      pose proof (state_inv_elim s Hs) as (Hlen & _ & Hc & _).
      rewrite SERVO_SetAngleByID_valid by lia.
      apply servo_at_written. lia.
    + apply List.Forall_forall. intros i Hin. apply in_map_iff in Hin as (k & <- & _). lia.
    + lia.
    + left. intros Hin. apply in_map_iff in Hin as (k & Hk & Hin).
      apply in_seq in Hin. lia.
  - assert (Hstep : servo_at (body port pin angle s (Z.of_nat a)) (Z.of_nat m)
                    = servo_at s (Z.of_nat m)) by (apply body_other; lia).
    rewrite (IH (S a)).
    + rewrite Hstep. reflexivity.
    + apply body_inv, Hs.
    + rewrite body_count. lia.
    + lia.
    + rewrite Hstep. exact Hmatch.
Qed.

(** X1. With an angle in [0, 180], [SERVO_SetAngleByPin(port, pin, angle)]
    sets [ticks] of every registered servo whose recorded pin and port
    equal the arguments (all of them, if a pin was registered more than
    once) and leaves every other entry, [servo_count], the cursor, the
    timer registers and the call log as they were. *)
Theorem SERVO_SetAngleByPin_all_matches (s : state) (port pin angle j : Z) :
  state_inv s ->
  0 <= angle <= 180 ->
  0 <= j ->
  servo_at (SetAngleByPin port pin angle s) j
  = (if (j <? servo_count s) && pin_matches port pin (servo_at s j)
     then Servo.mk (Servo.port (servo_at s j)) (Servo.pin (servo_at s j))
                   (angle_ticks F_CPU TIMER1_PRESCALER dbl angle)
     else servo_at s j) /\
  servo_count (SetAngleByPin port pin angle s) = servo_count s /\
  servo_id (SetAngleByPin port pin angle s) = servo_id s /\
  TCNT1 (SetAngleByPin port pin angle s) = TCNT1 s /\
  OCR1B (SetAngleByPin port pin angle s) = OCR1B s /\
  calls (SetAngleByPin port pin angle s) = calls s.
Proof.
  intros Hs Ha Hj.
  pose proof (state_inv_elim s Hs) as (_ & _ & Hc & _).
  split.
  - unfold SERVO_SetAngleByPin.
    destruct (j <? servo_count s) eqn:Hlt; simpl.
    + apply Z.ltb_lt in Hlt.
      destruct (pin_matches port pin (servo_at s j)) eqn:Hm.
      * replace j with (Z.of_nat (Z.to_nat j)) in * by lia.
        apply fold_hit; try assumption; lia.
      * apply fold_miss; [apply index_range_nonneg|exact Hj|right; exact Hm].
    + apply Z.ltb_ge in Hlt.
      apply fold_miss; [apply index_range_nonneg|exact Hj|].
      left. intros Hin. apply in_map_iff in Hin as (k & Hk & Hin).
      apply in_seq in Hin. lia.
  - destruct (SERVO_SetAngleByPin_fold_globals F_CPU TIMER1_PRESCALER dbl port pin angle
                (map Z.of_nat (seq 0 (Z.to_nat (servo_count s)))) s)
      as (H1 & H2 & H3 & H4 & _ & H6).
    unfold SERVO_SetAngleByPin. repeat split; assumption.
Qed.

Lemma fold_invalid_angle (port pin angle : Z) (ids : list Z) (s : state) :
  ~ 0 <= angle <= 180 -> foldl (body port pin angle) s ids = s.
Proof.
  intros Ha. induction ids as [|i ids IH]; [reflexivity|].
  simpl. unfold SERVO_SetAngleByPin_body at 2.
  destruct (andb _ _); [|exact IH].
  rewrite SERVO_SetAngleByID_invalid by tauto. exact IH.
Qed.

Lemma fold_nothing_matches (port pin angle : Z) (ids : list Z) (s : state) :
  (forall i, In i ids -> pin_matches port pin (servo_at s i) = false) ->
  foldl (body port pin angle) s ids = s.
Proof.
  intros Hno. induction ids as [|i ids IH]; [reflexivity|].
  simpl. rewrite body_no_match by (apply Hno; left; reflexivity).
  apply IH. intros k Hk. apply Hno. right. exact Hk.
Qed.

(** X2. [SERVO_SetAngleByPin] returns the state it was given when the
    angle is above 180 (or otherwise outside [0, 180]), and also when no
    registered servo has the given pin and port; in particular when no
    servo is registered at all. *)
Theorem SERVO_SetAngleByPin_noop (s : state) (port pin angle : Z) :
  ~ 0 <= angle <= 180 \/
  (forall i, 0 <= i < servo_count s -> pin_matches port pin (servo_at s i) = false) ->
  SetAngleByPin port pin angle s = s.
Proof.
  intros [Ha|Hno]; unfold SERVO_SetAngleByPin.
  - apply fold_invalid_angle, Ha.
  - apply fold_nothing_matches. intros i Hin.
    apply in_map_iff in Hin as (k & <- & Hin). apply in_seq in Hin.
    apply Hno. lia.
Qed.

End Lookup.

Section Registry.
Variable F_CPU : Z.
Variable TIMER1_PRESCALER : Z.
Variable dbl : double_format.

Local Abbreviation SetAngleByID := (SERVO_SetAngleByID F_CPU TIMER1_PRESCALER dbl).
Local Abbreviation run := (run_ops F_CPU TIMER1_PRESCALER dbl).
Local Abbreviation step := (run_op F_CPU TIMER1_PRESCALER dbl).

Lemma SERVO_Init_id (port pin : Z) (s : state) :
  servo_count s < SERVO_MAX_NUM -> fst (SERVO_Init port pin s) = servo_count s.
Proof.
  intros Hroom. unfold SERVO_Init. apply Z.leb_gt in Hroom. rewrite Hroom.
  destruct (servo_count s =? 0); reflexivity.
Qed.

(** X3. The ids handed out are consecutive: after any history of calls
    that contains [n < 9] calls of [SERVO_Init], whatever else was called
    in between, the next [SERVO_Init] returns [n]. *)
Theorem SERVO_Init_ids_consecutive (ops : list op) (port pin : Z) :
  forallb op_ok ops = true ->
  count_inits ops < SERVO_MAX_NUM ->
  fst (SERVO_Init port pin (run ops initial_state)) = count_inits ops.
Proof.
  intros Hok Hn. unfold SERVO_MAX_NUM in Hn.
  pose proof (count_inits_nonneg ops) as H0.
  assert (Hcnt : servo_count (run ops initial_state) = count_inits ops).
  { rewrite run_ops_count by (try apply initial_state_inv; assumption). simpl. lia. }
  rewrite SERVO_Init_id by (unfold SERVO_MAX_NUM; lia). exact Hcnt.
Qed.

Lemma step_append_only (s : state) (o : op) :
  state_inv s -> op_ok o = true ->
  servo_count s <= servo_count (step s o) /\
  forall i, 0 <= i < servo_count s ->
    Servo.port (servo_at (step s o) i) = Servo.port (servo_at s i) /\
    Servo.pin (servo_at (step s o) i) = Servo.pin (servo_at s i).
Proof.
  intros Hs Ho. pose proof (state_inv_elim s Hs) as (Hlen & _ & Hc & _).
  split.
  - rewrite run_op_count by exact Hs. destruct (is_Init o); lia.
  - intros i Hi. destruct o as [port pin|k angle|port pin angle|now]; simpl.
    + destruct (Z_lt_le_dec (servo_count s) SERVO_MAX_NUM) as [Hroom|Hfull].
      * unfold servo_at. rewrite SERVO_Init_servos by exact Hroom.
        rewrite list_lookup_insert_ne by lia. split; reflexivity.
      * unfold SERVO_Init. apply Z.leb_le in Hfull. rewrite Hfull. split; reflexivity.
    + simpl in Ho. apply andb_true_iff in Ho as [Hk _].
      unfold is_u8 in Hk. apply andb_true_iff in Hk as [Hk _]. apply Z.leb_le in Hk.
      apply SERVO_SetAngleByID_port_pin; lia.
    + apply (SERVO_SetAngleByPin_fold_port_pin F_CPU TIMER1_PRESCALER dbl);
        [apply index_range_nonneg|lia].
    + unfold compare_match. destruct (compb_callback s) as [[]|]; [|split; reflexivity].
      destruct (SERVO_Interrupt_registry F_CPU TIMER1_PRESCALER (set_TCNT1 now s))
        as (Hsv & _).
      unfold servo_at. rewrite Hsv. split; reflexivity.
Qed.

Lemma run_ops_append_only (ops : list op) (s : state) :
  state_inv s ->
  forallb op_ok ops = true ->
  servo_count s <= servo_count (run ops s) /\
  forall i, 0 <= i < servo_count s ->
    Servo.port (servo_at (run ops s) i) = Servo.port (servo_at s i) /\
    Servo.pin (servo_at (run ops s) i) = Servo.pin (servo_at s i).
Proof.
  intros Hs Hok. revert s Hs.
  induction ops as [|o ops IH]; intros s Hs.
  - split; [simpl; lia|]. intros i Hi. split; reflexivity.
  - simpl in Hok. apply andb_true_iff in Hok as [Ho Hok].
    unfold run_ops. simpl. fold (run ops (step s o)).
    destruct (step_append_only s o Hs Ho) as [Hc1 Hp1].
    destruct (IH Hok (step s o) (run_op_inv F_CPU TIMER1_PRESCALER dbl s o Ho Hs))
      as [Hc2 Hp2].
    split; [lia|]. intros i Hi.
    destruct (Hp1 i Hi) as [E1 E2]. destruct (Hp2 i ltac:(lia)) as [E3 E4].
    split; congruence.
Qed.

(** X4. The registry is append-only.  Over any sequence of calls
    ([SERVO_Init], [SERVO_SetAngleByID], [SERVO_SetAngleByPin], the
    interrupt handler) [servo_count] never decreases, and the recorded port
    and pin of a servo that is registered never change. *)
Theorem registry_append_only (ops : list op) (s : state) :
  state_inv s ->
  forallb op_ok ops = true ->
  servo_count s <= servo_count (run ops s) /\
  forall i, 0 <= i < servo_count s ->
    Servo.port (servo_at (run ops s) i) = Servo.port (servo_at s i) /\
    Servo.pin (servo_at (run ops s) i) = Servo.pin (servo_at s i).
Proof. apply run_ops_append_only. Qed.

(** X5. A servo id stays valid.  If [SERVO_Init] returns an id other than
    0xFF, then after any further sequence of calls
    [SERVO_SetAngleByID(id, angle)] with an angle in [0, 180] is not
    ignored: it stores the tick count of that angle in the entry [id]. *)
Theorem SERVO_Init_then_SetAngleByID (s : state) (ops : list op) (port pin angle : Z) :
  state_inv s ->
  forallb op_ok ops = true ->
  0 <= angle <= 180 ->
  let id := fst (SERVO_Init port pin s) in
  let s1 := snd (SERVO_Init port pin s) in
  id <> 255 ->
  Servo.ticks (servo_at (SetAngleByID id angle (run ops s1)) id)
  = angle_ticks F_CPU TIMER1_PRESCALER dbl angle.
Proof.
  intros Hs Hok Ha id s1 Hid.
  pose proof (state_inv_elim s Hs) as (_ & _ & Hc & _).
  destruct (Z_lt_le_dec (servo_count s) SERVO_MAX_NUM) as [Hroom|Hfull].
  - assert (Eid : id = servo_count s) by (apply SERVO_Init_id, Hroom).
    assert (Hs1 : state_inv s1) by (apply SERVO_Init_inv, Hs).
    assert (Hc1 : servo_count s1 = servo_count s + 1).
    { subst s1. rewrite SERVO_Init_count by exact Hs. unfold SERVO_MAX_NUM in Hroom. lia. }
    destruct (run_ops_append_only ops s1 Hs1 Hok) as [Hmono _].
    apply SERVO_SetAngleByID_stored; [|exact Ha|lia].
    apply run_ops_inv; assumption.
  - exfalso. apply Hid. subst id. unfold SERVO_Init.
    apply Z.leb_le in Hfull. rewrite Hfull. reflexivity.
Qed.

Lemma step_cursor_inv (s : state) (o : op) :
  state_inv s -> op_ok o = true -> cursor_inv s -> cursor_inv (step s o).
Proof.
  intros Hs Ho Hcur. pose proof (state_inv_elim s Hs) as (_ & _ & Hc & Hid & _).
  destruct (step_append_only s o Hs Ho) as [Hmono _].
  assert (Hfg : servo_id (step s o) = servo_id s -> cursor_inv (step s o)).
  { intros E. unfold cursor_inv in *. rewrite E. lia. }
  destruct o as [port pin|k angle|port pin angle|now]; simpl in *.
  - apply Hfg, SERVO_Init_cursor.
  - apply Hfg, SERVO_SetAngleByID_globals.
  - apply Hfg, (SERVO_SetAngleByPin_fold_globals F_CPU TIMER1_PRESCALER dbl).
  - unfold compare_match in *. destruct (compb_callback s) as [[]|]; [|exact Hcur].
    set (t := set_TCNT1 now s) in *.
    assert (Ht : state_inv t) by (apply set_TCNT1_inv; assumption).
    destruct (SERVO_Interrupt_registry F_CPU TIMER1_PRESCALER t) as (_ & Hcnt & _).
    unfold cursor_inv. rewrite Hcnt. right.
    destruct (Z_lt_le_dec (servo_id t) (servo_count t)) as [Hlt|Hge].
    + destruct (Interrupt_next F_CPU TIMER1_PRESCALER t Ht Hlt) as (E & _).
      rewrite E. change (servo_id t) with (servo_id s) in *.
      change (servo_count t) with (servo_count s) in *. lia.
    + destruct (Interrupt_reset F_CPU TIMER1_PRESCALER t Hge) as (E & _).
      rewrite E. change (servo_count t) with (servo_count s). lia.
Qed.

(** X6. Every array access stays inside [servos].  In every reachable
    state the array has its nine elements, [servo_count] is at most 9, and
    the cursor of the handler is either the power-on value 0xFF or at most
    [servo_count]; the handler reads [servos[servo_id]] only after testing
    [servo_id < servo_count]. *)
Theorem reachable_bounds (s : state) :
  reachable F_CPU TIMER1_PRESCALER dbl s ->
  length (servos s) = 9%nat /\
  0 <= servo_count s <= SERVO_MAX_NUM /\
  (servo_id s = 255 \/ 0 <= servo_id s <= servo_count s).
Proof.
  intros (ops & Hok & ->).
  assert (Hgen : forall t, state_inv t -> cursor_inv t ->
                 state_inv (run ops t) /\ cursor_inv (run ops t)).
  { clear - Hok. induction ops as [|o ops IH]; intros t Ht Hcur; [split; assumption|].
    simpl in Hok. apply andb_true_iff in Hok as [Ho Hok].
    unfold run_ops. simpl. apply (IH Hok).
    - apply run_op_inv; assumption.
    - apply step_cursor_inv; assumption. }
  destruct (Hgen initial_state initial_state_inv) as [Hinv Hcur].
  { left. reflexivity. }
  pose proof (state_inv_elim _ Hinv) as (Hlen & _ & Hc & _).
  unfold SERVO_MAX_NUM. repeat split; try assumption; lia.
Qed.

Lemma classic_valid (angle i : Z) (s : state) :
  (0 <= angle <= 180 /\ i < servo_count s) \/ ~ (0 <= angle <= 180 /\ i < servo_count s).
Proof. lia. Qed.

(** X7. The last angle wins.  Two calls of [SERVO_SetAngleByID] for the
    same id, the second with an angle in [0, 180], leave the state that
    the second call alone would leave; in particular a repeated call
    changes nothing further. *)
Theorem SERVO_SetAngleByID_last_wins (s : state) (i a1 a2 : Z) :
  0 <= a2 <= 180 ->
  SetAngleByID i a2 (SetAngleByID i a1 s) = SetAngleByID i a2 s.
Proof.
  intros Ha2.
  destruct (Z_lt_le_dec i (servo_count s)) as [Hi|Hi].
  - destruct (Z_le_dec 0 a1) as [H0|H0]; [destruct (Z_le_dec a1 180) as [H1|H1]|];
      try (rewrite (SERVO_SetAngleByID_invalid F_CPU TIMER1_PRESCALER dbl s i a1) by lia;
           reflexivity).
    rewrite (SERVO_SetAngleByID_valid F_CPU TIMER1_PRESCALER dbl s i a1) by lia.
    rewrite !SERVO_SetAngleByID_valid by (simpl; lia).
    unfold set_servos. simpl. rewrite list_insert_insert_eq.
    assert (Hold : forall v l,
      servo_at (mkState (<[Z.to_nat i:=v]> l) (servo_count s) (servo_id s) (TCNT1 s)
                        (OCR1B s) (compb_callback s) (calls s)) i
      = default servo_zero (<[Z.to_nat i:=v]> l !! Z.to_nat i)) by reflexivity.
    rewrite Hold.
    destruct (Nat.lt_ge_cases (Z.to_nat i) (length (servos s))) as [Hin|Hout].
    + rewrite list_lookup_insert_eq by exact Hin. reflexivity.
    + rewrite !list_insert_ge by exact Hout. reflexivity.
  - rewrite (SERVO_SetAngleByID_invalid F_CPU TIMER1_PRESCALER dbl s i a1) by lia.
    reflexivity.
Qed.

(** X8. Calls of [SERVO_SetAngleByID] for different ids commute. *)
Theorem SERVO_SetAngleByID_commute (s : state) (i j a b : Z) :
  0 <= i -> 0 <= j -> i <> j ->
  SetAngleByID i a (SetAngleByID j b s) = SetAngleByID j b (SetAngleByID i a s).
Proof.
  intros Hi Hj Hne.
  assert (Hcnt : forall k c, servo_count (SetAngleByID k c s) = servo_count s)
    by (intros k c; apply SERVO_SetAngleByID_globals).
  destruct (classic_valid a i s) as [Gi|Gi]; destruct (classic_valid b j s) as [Gj|Gj].
  - rewrite (SERVO_SetAngleByID_valid F_CPU TIMER1_PRESCALER dbl s j b) by exact Gj.
    rewrite (SERVO_SetAngleByID_valid F_CPU TIMER1_PRESCALER dbl s i a) by exact Gi.
    rewrite !SERVO_SetAngleByID_valid by (simpl; exact Gi || exact Gj).
    rewrite !servo_at_other by (assumption || (intros E; apply Hne; symmetry; exact E)).
    unfold set_servos. simpl. f_equal.
    apply list_insert_insert_ne. lia.
  - rewrite (SERVO_SetAngleByID_invalid F_CPU TIMER1_PRESCALER dbl s j b) by exact Gj.
    symmetry. apply SERVO_SetAngleByID_invalid. rewrite Hcnt. exact Gj.
  - rewrite (SERVO_SetAngleByID_invalid F_CPU TIMER1_PRESCALER dbl s i a) by exact Gi.
    apply SERVO_SetAngleByID_invalid. rewrite Hcnt. exact Gi.
  - rewrite (SERVO_SetAngleByID_invalid F_CPU TIMER1_PRESCALER dbl s j b) by exact Gj.
    rewrite !(SERVO_SetAngleByID_invalid F_CPU TIMER1_PRESCALER dbl s i a) by exact Gi.
    symmetry. apply SERVO_SetAngleByID_invalid. exact Gj.
Qed.

End Registry.

Section Aliasing.
Variable F_CPU : Z.
Variable TIMER1_PRESCALER : Z.
Variable dbl : double_format.

Local Abbreviation Interrupt := (SERVO_Interrupt F_CPU TIMER1_PRESCALER).
Local Abbreviation run := (run_ops F_CPU TIMER1_PRESCALER dbl).

(** An invocation that leaves the cursor on a servo with positive [ticks]
    makes three calls, the last of which drives the recorded pin HIGH. *)
Lemma Interrupt_begins_pulse (t : state) (i : Z) :
  state_inv t -> i < servo_count t -> 0 < Servo.ticks (servo_at t i) ->
  servo_id (Interrupt t) = i ->
  exists c1 c2,
    calls (Interrupt t)
    = calls t ++ [c1; c2;
                  Call_DIO_SetPinValue (Servo.port (servo_at t i))
                                       (Servo.pin (servo_at t i)) HIGH].
Proof.
  intros Ht Hi Hpos Hland. apply Z.ltb_lt in Hpos.
  destruct (Z_lt_le_dec (servo_id t) (servo_count t)) as [Hlt|Hge].
  - destruct (Interrupt_next F_CPU TIMER1_PRESCALER t Ht Hlt) as (Hnext & _).
    assert (Hi' : servo_id t + 1 = i) by congruence.
    destruct (Interrupt_land F_CPU TIMER1_PRESCALER t Ht Hlt) as (_ & Hcalls & _); [lia|].
    rewrite Hcalls. unfold pulse_begin. rewrite Hi', Hpos.
    eexists _, _. reflexivity.
  - destruct (Interrupt_reset F_CPU TIMER1_PRESCALER t Hge) as (Hzero & _).
    assert (Hi' : i = 0) by congruence. clear Hland. subst i.
    destruct (Interrupt_land_first F_CPU TIMER1_PRESCALER t Hge Hi) as (_ & Hcalls & _).
    rewrite Hcalls. unfold pulse_begin. rewrite Hpos.
    eexists _, _. reflexivity.
Qed.

(** C10. [SERVO_Init(port, pin)] records [port mod 4] and [pin mod 8] in
    the new entry, and the entry keeps them through every later call.  The
    handler passes the recorded values to [DIO_SetPinValue]: in any state
    whose entry [id] holds them, an invocation with the cursor on [id]
    first drives LOW port [port mod 4], pin [pin mod 8], and an invocation
    that leaves the cursor on [id], its [ticks] being positive, ends by
    driving that port and pin HIGH.  [SERVO_SetAngleByPin] compares its
    arguments with the recorded values: called with [port mod 4] and
    [pin mod 8] right after the registration it finds the new entry and
    sets its [ticks], but with [port >= 4] or [pin >= 8] it matches no
    entry and changes nothing. *)
Theorem Servo_bitfield_truncation (s : state) (port pin angle : Z) :
  state_inv s ->
  servo_count s < SERVO_MAX_NUM ->
  let id := fst (SERVO_Init port pin s) in
  let s' := snd (SERVO_Init port pin s) in
  Servo.port (servo_at s' id) = port mod 4 /\
  Servo.pin (servo_at s' id) = pin mod 8 /\
  (forall ops, forallb op_ok ops = true ->
     Servo.port (servo_at (run ops s') id) = port mod 4 /\
     Servo.pin (servo_at (run ops s') id) = pin mod 8 /\
     id < servo_count (run ops s')) /\
  (forall t, state_inv t ->
     Servo.port (servo_at t id) = port mod 4 ->
     Servo.pin (servo_at t id) = pin mod 8 ->
     servo_id t = id -> id < servo_count t ->
     exists rest,
       calls (Interrupt t)
       = calls t ++ Call_DIO_SetPinValue (port mod 4) (pin mod 8) LOW :: rest) /\
  (forall t, state_inv t ->
     Servo.port (servo_at t id) = port mod 4 ->
     Servo.pin (servo_at t id) = pin mod 8 ->
     id < servo_count t ->
     0 < Servo.ticks (servo_at t id) ->
     servo_id (Interrupt t) = id ->
     exists c1 c2,
       calls (Interrupt t)
       = calls t ++ [c1; c2; Call_DIO_SetPinValue (port mod 4) (pin mod 8) HIGH]) /\
  (0 <= angle <= 180 ->
     Servo.ticks
       (servo_at (SERVO_SetAngleByPin F_CPU TIMER1_PRESCALER dbl
                    (port mod 4) (pin mod 8) angle s') id)
     = angle_ticks F_CPU TIMER1_PRESCALER dbl angle) /\
  (4 <= port \/ 8 <= pin ->
     forall t, state_inv t ->
       SERVO_SetAngleByPin F_CPU TIMER1_PRESCALER dbl port pin angle t = t).
Proof.
  intros Hs Hroom id s'.
  pose proof (state_inv_elim s Hs) as (Hlen & _ & Hc & _).
  assert (Hid : id = servo_count s) by (apply SERVO_Init_id, Hroom).
  assert (Hs' : state_inv s') by (apply SERVO_Init_inv, Hs).
  assert (Hcnt' : servo_count s' = servo_count s + 1).
  { subst s'. rewrite SERVO_Init_count by exact Hs. unfold SERVO_MAX_NUM in Hroom. lia. }
  assert (Hnew : servo_at s' id = Servo.mk (port mod 4) (pin mod 8) 0).
  { subst s'. rewrite Hid. unfold servo_at. rewrite SERVO_Init_servos by exact Hroom.
    unfold SERVO_MAX_NUM in Hroom.
    rewrite list_lookup_insert_eq by lia. reflexivity. }
  split; [rewrite Hnew; reflexivity|]. split; [rewrite Hnew; reflexivity|].
  split; [|split; [|split; [|split]]].
  - intros ops Hok.
    destruct (run_ops_append_only F_CPU TIMER1_PRESCALER dbl ops s' Hs' Hok) as [Hmono Hpp].
    destruct (Hpp id ltac:(lia)) as [P1 P2].
    rewrite P1, P2, Hnew. simpl. repeat split. lia.
  - intros t Ht Hp Hq Hcur Hin.
    destruct (Interrupt_next F_CPU TIMER1_PRESCALER t Ht) as (_ & _ & rest & Hcalls); [lia|].
    exists rest. rewrite Hcalls. unfold pulse_end. rewrite Hcur, Hp, Hq. reflexivity.
  - intros t Ht Hp Hq Hin Hpos Hland.
    destruct (Interrupt_begins_pulse t id Ht Hin Hpos Hland) as (c1 & c2 & Hcalls).
    exists c1, c2. rewrite Hcalls, Hp, Hq. reflexivity.
  - intros Ha.
    pose proof (SERVO_SetAngleByPin_last F_CPU TIMER1_PRESCALER dbl s' angle Hs'
                  ltac:(lia) Ha) as Hlast.
    replace (servo_count s' - 1) with id in Hlast by lia.
    rewrite Hnew in Hlast. exact Hlast.
  - intros Hbig t Ht.
    apply (SERVO_SetAngleByPin_no_match F_CPU TIMER1_PRESCALER dbl); assumption.
Qed.

End Aliasing.

Section Conversion.
Variable F_CPU : Z.
Variable TIMER1_PRESCALER : Z.
Variable dbl : double_format.

(** X9. For every angle in [0, 180] the floating-point computation of
    [microseconds] gives the integer [1000 + floor(50 * angle / 9)], with
    binary32 as with binary64 doubles: the rounding steps never push the
    truncated result off by one. *)
Theorem microseconds_of_angle_integer (angle : Z) :
  0 <= angle <= 180 ->
  microseconds_of_angle dbl angle = 1000 + 50 * angle / 9 /\
  microseconds_of_angle Binary32 angle = microseconds_of_angle Binary64 angle.
Proof.
  intros Ha. rewrite !microseconds_of_angle_exact by exact Ha. split; reflexivity.
Qed.

(** X10. One more degree is 5 or 6 more microseconds: over [0, 180] the
    pulse width in microseconds is strictly increasing in the angle. *)
Theorem microseconds_of_angle_step (angle : Z) :
  0 <= angle < 180 ->
  microseconds_of_angle dbl (angle + 1) - microseconds_of_angle dbl angle = 5 \/
  microseconds_of_angle dbl (angle + 1) - microseconds_of_angle dbl angle = 6.
Proof.
  intros Ha. rewrite !microseconds_of_angle_exact by lia.
  pose proof (Z.div_mod (50 * angle) 9 ltac:(lia)) as E1.
  pose proof (Z.mod_pos_bound (50 * angle) 9 ltac:(lia)) as B1.
  pose proof (Z.div_mod (50 * (angle + 1)) 9 ltac:(lia)) as E2.
  pose proof (Z.mod_pos_bound (50 * (angle + 1)) 9 ltac:(lia)) as B2.
  lia.
Qed.

(** X11. [SERVO_US_TO_TICKS] uses the clock in whole megahertz: [F_CPU] and
    [F_CPU] rounded down to a multiple of 1000000 give the same tick
    counts.  With a clock below 1 MHz every tick count is 0: the frame
    length is 0 and every angle is stored as [ticks = 0]. *)
Theorem SERVO_US_TO_TICKS_whole_MHz (us angle : Z) :
  SERVO_US_TO_TICKS F_CPU TIMER1_PRESCALER us
  = SERVO_US_TO_TICKS (1000000 * (F_CPU / 1000000)) TIMER1_PRESCALER us /\
  (0 <= F_CPU < 1000000 ->
     SERVO_US_TO_TICKS F_CPU TIMER1_PRESCALER us = 0 /\
     SERVO_PWM_INTERVAL_TICKS F_CPU TIMER1_PRESCALER = 0 /\
     angle_ticks F_CPU TIMER1_PRESCALER dbl angle = 0).
Proof.
  split.
  - unfold SERVO_US_TO_TICKS.
    replace (1000000 * (F_CPU / 1000000) / 1000000) with (F_CPU / 1000000); [reflexivity|].
    symmetry. rewrite Z.mul_comm. apply Z.div_mul. lia.
  - intros HF.
    assert (Hz : forall x, SERVO_US_TO_TICKS F_CPU TIMER1_PRESCALER x = 0).
    { intros x. unfold SERVO_US_TO_TICKS. rewrite (Z.div_small F_CPU) by lia.
      rewrite Z.mul_0_r. reflexivity. }
    split; [apply Hz|]. split; [apply Hz|].
    unfold angle_ticks. rewrite Hz. reflexivity.
Qed.

End Conversion.

Section Frame.
Variable F_CPU : Z.
Variable TIMER1_PRESCALER : Z.
Variable dbl : double_format.

Local Abbreviation INTERVAL := (SERVO_PWM_INTERVAL_TICKS F_CPU TIMER1_PRESCALER).
Local Abbreviation Interrupt := (SERVO_Interrupt F_CPU TIMER1_PRESCALER).
Local Abbreviation interrupts := (run_interrupts F_CPU TIMER1_PRESCALER).
Local Abbreviation fire1 := (fire F_CPU TIMER1_PRESCALER).
Local Abbreviation fireN := (fires F_CPU TIMER1_PRESCALER).
Local Abbreviation run := (run_ops F_CPU TIMER1_PRESCALER dbl).

(** X12. A frame takes [servo_count + 1] invocations of the handler.
    Starting with the cursor out of range, that many invocations (entered
    at any counter values, no foreground call in between) leave the cursor
    at [servo_count], and the invocation after them resets the counter
    and the cursor to 0: a new frame. *)
Theorem frame_cycle (s : state) (nows : list Z) (now : Z) :
  state_inv s ->
  servo_count s <= servo_id s ->
  forallb is_u16 nows = true ->
  is_u16 now = true ->
  Z.of_nat (length nows) = servo_count s + 1 ->
  servo_id (interrupts nows s) = servo_count s /\
  servo_id (Interrupt (set_TCNT1 now (interrupts nows s))) = 0 /\
  TCNT1 (Interrupt (set_TCNT1 now (interrupts nows s))) = 0.
Proof.
  intros Hs Hstart Hn Hnow Hlen.
  pose proof (state_inv_elim s Hs) as (_ & _ & Hc & _).
  assert (Hcur : servo_id (interrupts nows s) = servo_count s).
  { rewrite (run_interrupts_cursor F_CPU TIMER1_PRESCALER nows s
               (Z.to_nat (servo_count s)) Hs Hstart Hn) by lia. lia. }
  split; [exact Hcur|].
  destruct (run_interrupts_registry F_CPU TIMER1_PRESCALER nows s) as [_ Hcnt].
  destruct (Interrupt_reset F_CPU TIMER1_PRESCALER (set_TCNT1 now (interrupts nows s)))
    as (E1 & E2 & _).
  - simpl. rewrite Hcur, Hcnt. lia.
  - split; assumption.
Qed.

(** X13. A pulse that was begun is ended on the same pin.  If the cursor
    is on a registered servo, then after any foreground calls (further
    registrations, changes of angle) the next invocation of the handler
    first drives LOW the port and pin recorded for that servo before those
    calls, and moves the cursor on by one. *)
Theorem pulse_ended_on_same_pin (s : state) (ops : list op) (now : Z) :
  state_inv s ->
  servo_id s < servo_count s ->
  forallb op_ok ops = true ->
  forallb foreground ops = true ->
  is_u16 now = true ->
  let t := set_TCNT1 now (run ops s) in
  servo_id (Interrupt t) = servo_id s + 1 /\
  exists rest,
    calls (Interrupt t)
    = calls t ++ Call_DIO_SetPinValue (Servo.port (servo_at s (servo_id s)))
                                       (Servo.pin (servo_at s (servo_id s))) LOW :: rest.
Proof.
  intros Hs Hlt Hok Hfg Hnow t.
  pose proof (state_inv_elim s Hs) as (_ & _ & Hc & Hid & _).
  pose proof (run_ops_inv F_CPU TIMER1_PRESCALER dbl ops s Hok Hs) as Hinv.
  destruct (run_ops_append_only F_CPU TIMER1_PRESCALER dbl ops s Hs Hok) as [Hmono Hpp].
  pose proof (foreground_cursor F_CPU TIMER1_PRESCALER dbl ops s Hfg) as Hcur.
  assert (Ht : state_inv t) by (apply set_TCNT1_inv; assumption).
  assert (Hidt : servo_id t = servo_id s) by exact Hcur.
  assert (Hlt' : servo_id t < servo_count t).
  { rewrite Hidt. change (servo_count t) with (servo_count (run ops s)). lia. }
  destruct (Interrupt_next F_CPU TIMER1_PRESCALER t Ht Hlt') as (E1 & _ & rest & E3).
  split; [rewrite E1, Hidt; reflexivity|].
  exists rest. rewrite E3. unfold pulse_end. rewrite Hidt.
  destruct (Hpp (servo_id s) ltac:(lia)) as [P1 P2].
  change (servo_at t (servo_id s)) with (servo_at (run ops s) (servo_id s)).
  rewrite P1, P2. reflexivity.
Qed.

(** *** Timing of a frame under exact compare matches *)

Lemma ticks_sum_mono (s : state) (k n : nat) :
  state_inv s -> (k <= n)%nat -> 0 <= ticks_sum s k <= ticks_sum s n.
Proof.
  intros Hs Hkn. pose proof (state_inv_elim s Hs) as (_ & Hfit & _).
  assert (Hnn : forall m, 0 <= ticks_sum s m).
  { induction m as [|m IH]; simpl; [lia|].
    pose proof (servo_fits_elim _ (servo_at_fits s (Z.of_nat m) Hfit)) as (_ & _ & Ht). lia. }
  split; [apply Hnn|].
  induction Hkn as [|n Hkn IH]; [lia|]. simpl.
  pose proof (servo_fits_elim _ (servo_at_fits s (Z.of_nat n) Hfit)) as (_ & _ & Ht). lia.
Qed.

Lemma ticks_sum_ext (a b : state) (k : nat) :
  servos a = servos b -> ticks_sum a k = ticks_sum b k.
Proof.
  intros H. induction k as [|k IH]; simpl; [reflexivity|].
  rewrite IH, (servo_at_ext a b) by exact H. reflexivity.
Qed.

Lemma fires_S (n : nat) (s : state) : fireN (S n) s = fire1 (fireN n s).
Proof. reflexivity. Qed.

Lemma fire_reset (e : state) :
  servo_count e <= servo_id e ->
  servo_id (fire1 e) = 0 /\
  TCNT1 (fire1 e) = 0 /\
  exists rest, calls (fire1 e) = calls e ++ Call_TIMER1_SetTimerValue 0 :: rest.
Proof.
  intros Hge. unfold fire.
  apply (Interrupt_reset F_CPU TIMER1_PRESCALER (set_TCNT1 (OCR1B e) e)). exact Hge.
Qed.

(** The compare match that ends the last pulse of the frame. *)
Lemma fire_frame_end (p : state) :
  0 <= INTERVAL <= 65535 ->
  state_inv p ->
  servo_id p + 1 = servo_count p ->
  OCR1B p + 50 < INTERVAL ->
  servo_id (fire1 p) = servo_count p /\
  servo_count (fire1 p) = servo_count p /\
  TCNT1 (fire1 p) = OCR1B p /\
  OCR1B (fire1 p) = INTERVAL /\
  calls (fire1 p)
  = calls p ++ [pulse_end p (servo_id p); Call_TIMER1_SetCompare_B_Value INTERVAL].
Proof.
  intros Hfit Hp Hlast Hhead.
  pose proof (state_inv_elim p Hp) as (_ & _ & Hc & Hid & _ & Hocr).
  unfold fire. set (t := set_TCNT1 (OCR1B p) p).
  assert (Hlt : servo_id t < servo_count t) by (change (servo_id p < servo_count p); lia).
  assert (Hu8 : u8 (servo_id t + 1) = servo_count p).
  { change (servo_id t) with (servo_id p).
    unfold u8. rewrite wrap_small; change (2 ^ 8) with 256; lia. }
  destruct (SERVO_Interrupt_registry F_CPU TIMER1_PRESCALER t) as (_ & R2 & _).
  revert R2. unfold SERVO_Interrupt. rewrite (advance_valid t Hlt), Hu8. intros R2.
  set (t1 := set_servo_id (servo_count p) (log (pulse_end t (servo_id t)) t)) in *.
  assert (Hout : servo_count t1 <= servo_id t1) by (apply Z.le_refl).
  destruct (schedule_frame_end F_CPU TIMER1_PRESCALER t1 Hout) as (S1 & S2 & S3 & S4).
  change (TCNT1 t1) with (OCR1B p) in S2, S3, S4.
  assert (Hhd : (u16 (OCR1B p + 50) <? INTERVAL) = true).
  { unfold u16. rewrite wrap_small by (change (2 ^ 16) with 65536; lia).
    apply Z.ltb_lt. exact Hhead. }
  rewrite Hhd in S3, S4.
  rewrite (u16_small INTERVAL Hfit) in S3, S4.
  change (calls t1) with (calls p ++ [pulse_end t (servo_id p)]) in S3.
  rewrite (pulse_end_ext t p) in S3 by reflexivity.
  rewrite <- app_assoc in S3.
  split; [exact S1|]. split; [exact R2|]. split; [exact S2|]. split; [exact S4|]. exact S3.
Qed.

Section AllPulses.
Variable s : state.
Hypothesis Hs : state_inv s.
Hypothesis Hstart : servo_count s <= servo_id s.
Hypothesis Hpos : forall j, 0 <= j < servo_count s -> 0 < Servo.ticks (servo_at s j).
Hypothesis Hsum : ticks_sum s (Z.to_nat (servo_count s)) < 65536.

(** The state after the compare match number [k+1] of the frame. *)
Lemma fires_land (k : nat) :
  Z.of_nat k < servo_count s ->
  let a := fireN k s in
  let b := fireN (S k) s in
  state_inv b /\ servos b = servos s /\ servo_count b = servo_count s /\
  servo_id b = Z.of_nat k /\
  TCNT1 b = ticks_sum s k /\
  OCR1B b = ticks_sum s (S k) /\
  calls b = calls a ++
            [if (k =? 0)%nat then Call_TIMER1_SetTimerValue 0
             else pulse_end s (Z.of_nat k - 1);
             Call_TIMER1_SetCompare_B_Value (ticks_sum s (S k));
             Call_DIO_SetPinValue (Servo.port (servo_at s (Z.of_nat k)))
                                  (Servo.pin (servo_at s (Z.of_nat k))) HIGH].
Proof.
  pose proof (state_inv_elim s Hs) as (_ & _ & Hc & _ & _ & Hocr).
  induction k as [|k IH]; intros Hk a b.
  - subst a b. rewrite fires_S. simpl fires. unfold fire.
    set (t := set_TCNT1 (OCR1B s) s).
    assert (Ht : state_inv t).
    { apply set_TCNT1_inv; [|exact Hs]. unfold is_u16.
      apply andb_true_iff. split; [apply Z.leb_le|apply Z.ltb_lt]; lia. }
    destruct (Interrupt_land_first F_CPU TIMER1_PRESCALER t) as (E1 & E2 & E3);
      [exact Hstart|exact Hk|].
    destruct (Interrupt_reset F_CPU TIMER1_PRESCALER t Hstart) as (_ & E4 & _).
    destruct (SERVO_Interrupt_registry F_CPU TIMER1_PRESCALER t) as (R1 & R2 & _).
    pose proof (Hpos 0 ltac:(lia)) as Hp0. apply Z.ltb_lt in Hp0.
    pose proof (ticks_sum_mono s 1 (Z.to_nat (servo_count s)) Hs ltac:(lia)) as Hm.
    simpl ticks_sum in Hm |- *. change (Z.of_nat 0) with 0 in *.
    assert (Hu : u16 (0 + Servo.ticks (servo_at s 0)) = 0 + Servo.ticks (servo_at s 0)).
    { unfold u16. apply wrap_small. change (2 ^ 16) with 65536. lia. }
    unfold pulse_begin in E2.
    change (servo_at t 0) with (servo_at s 0) in E2, E3.
    rewrite Hp0, Hu in E2, E3.
    split; [apply SERVO_Interrupt_inv, Ht|].
    split; [exact R1|]. split; [exact R2|]. split; [exact E1|].
    split; [exact E4|]. split; [exact E3|]. exact E2.
  - specialize (IH ltac:(lia)). cbv zeta in IH.
    destruct IH as (Ia & Isv & Icnt & Iid & Itc & Ioc & _).
    subst a b. rewrite (fires_S (S k)). unfold fire.
    set (p := fireN (S k) s) in *.
    set (t := set_TCNT1 (OCR1B p) p).
    pose proof (ticks_sum_mono s (S (S k)) (Z.to_nat (servo_count s)) Hs ltac:(lia)) as Hm.
    pose proof (ticks_sum_mono s (S k) (S (S k)) Hs ltac:(lia)) as Hm1.
    assert (Ht : state_inv t).
    { apply set_TCNT1_inv; [|exact Ia]. rewrite Ioc. unfold is_u16.
      apply andb_true_iff. split; [apply Z.leb_le|apply Z.ltb_lt];
        change (2 ^ 16) with 65536; lia. }
    assert (Hsvt : servos t = servos s) by exact Isv.
    destruct (Interrupt_land F_CPU TIMER1_PRESCALER t Ht) as (E1 & E2 & E3).
    { change (servo_id p < servo_count p). lia. }
    { change (servo_id p + 1 < servo_count p). lia. }
    destruct (Interrupt_next F_CPU TIMER1_PRESCALER t Ht) as (_ & E4 & _).
    { change (servo_id p < servo_count p). lia. }
    destruct (SERVO_Interrupt_registry F_CPU TIMER1_PRESCALER t) as (R1 & R2 & _).
    change (servo_id t) with (servo_id p) in E1, E2, E3.
    change (TCNT1 t) with (OCR1B p) in E2, E3, E4.
    change (calls t) with (calls p) in E2.
    rewrite Iid, Ioc in *.
    replace (Z.of_nat k + 1) with (Z.of_nat (S k)) in * by lia.
    rewrite (pulse_end_ext t s), (pulse_begin_ext t s) in E2 by exact Hsvt.
    rewrite (servo_at_ext t s) in E3 by exact Hsvt.
    pose proof (Hpos (Z.of_nat (S k)) ltac:(lia)) as Hp. apply Z.ltb_lt in Hp.
    unfold pulse_begin in E2. rewrite Hp in E2, E3.
    assert (Hu : u16 (ticks_sum s (S k) + Servo.ticks (servo_at s (Z.of_nat (S k))))
                 = ticks_sum s (S (S k))).
    { unfold u16. rewrite wrap_small; [reflexivity|].
      change (2 ^ 16) with 65536. simpl ticks_sum in Hm, Hm1 |- *. lia. }
    rewrite Hu in E2, E3.
    split; [apply SERVO_Interrupt_inv, Ht|].
    split; [rewrite R1; exact Hsvt|]. split; [rewrite R2; exact Icnt|].
    split; [exact E1|]. split; [exact E4|]. split; [exact E3|].
    replace (Z.of_nat (S k) - 1) with (Z.of_nat k) by lia. exact E2.
Qed.

(** X14. Pulse widths are exact.  In a frame in which every registered
    servo has positive [ticks] (their sum below 65536) and every compare
    match is taken when the counter reaches the compare register, the
    handler drives the pin of servo [k] HIGH at counter value
    [ticks_0 + ... + ticks_(k-1)], having programmed the compare register to
    that value plus [ticks_k], and the next invocation, entered at that
    counter value, first drives the same pin LOW: the pulse of servo [k]
    lasts [ticks_k] ticks and begins where the pulse of servo [k-1] ends. *)
Theorem pulse_width_exact (k : nat) :
  Z.of_nat k < servo_count s ->
  let a := fireN k s in
  let b := fireN (S k) s in
  let c := fireN (S (S k)) s in
  let width := Servo.ticks (servo_at s (Z.of_nat k)) in
  TCNT1 b = ticks_sum s k /\
  OCR1B b = ticks_sum s k + width /\
  calls b = calls a ++
            [if (k =? 0)%nat then Call_TIMER1_SetTimerValue 0
             else pulse_end s (Z.of_nat k - 1);
             Call_TIMER1_SetCompare_B_Value (ticks_sum s k + width);
             Call_DIO_SetPinValue (Servo.port (servo_at s (Z.of_nat k)))
                                  (Servo.pin (servo_at s (Z.of_nat k))) HIGH] /\
  TCNT1 c = ticks_sum s k + width /\
  exists rest,
    calls c = calls b ++
              Call_DIO_SetPinValue (Servo.port (servo_at s (Z.of_nat k)))
                                   (Servo.pin (servo_at s (Z.of_nat k))) LOW :: rest.
Proof.
  intros Hk a b c width.
  destruct (fires_land k Hk) as (Ib & Isv & Icnt & Iid & Itc & Ioc & Icalls).
  fold b in Ib, Isv, Icnt, Iid, Itc, Ioc, Icalls. fold a in Icalls.
  simpl ticks_sum in Ioc, Icalls. fold width in Ioc, Icalls.
  split; [exact Itc|]. split; [exact Ioc|]. split; [exact Icalls|].
  subst c. rewrite (fires_S (S k)). fold b. unfold fire.
  set (t := set_TCNT1 (OCR1B b) b).
  pose proof (state_inv_elim b Ib) as (_ & _ & _ & _ & _ & Hocr).
  assert (Ht : state_inv t).
  { apply set_TCNT1_inv; [|exact Ib]. unfold is_u16.
    apply andb_true_iff. split; [apply Z.leb_le|apply Z.ltb_lt]; lia. }
  destruct (Interrupt_next F_CPU TIMER1_PRESCALER t Ht) as (_ & E2 & rest & E3).
  { change (servo_id b < servo_count b). lia. }
  split; [rewrite E2; exact Ioc|].
  exists rest. rewrite E3. rewrite (pulse_end_ext t s) by exact Isv.
  change (servo_id t) with (servo_id b). rewrite Iid. reflexivity.
Qed.

(** [SERVO_PWM_INTERVAL_TICKS] is a value of the 16-bit compare register:
    the condition that [SERVO_config.h] tests. *)
Hypothesis interval_fits : INTERVAL <= TIMER1_MAX_CAPACITY.
Hypothesis Hsome : 0 < servo_count s.
Hypothesis Hhead : ticks_sum s (Z.to_nat (servo_count s)) + 50 < INTERVAL.

(** X15. The frame lasts [SERVO_PWM_INTERVAL_TICKS].  Under the same
    conditions, if [SERVO_PWM_INTERVAL_TICKS] is at most
    [TIMER1_MAX_CAPACITY] = 65535 (it fits the 16-bit compare register) and
    the pulse widths sum to less than [SERVO_PWM_INTERVAL_TICKS - 50], the
    invocation that ends the last pulse is entered at counter value
    [ticks_0 + ... + ticks_(n-1)], makes the two calls "last pin LOW,
    compare register := SERVO_PWM_INTERVAL_TICKS", and the compare match at
    that value resets the counter and the cursor to 0: the counter runs
    from 0 to [SERVO_PWM_INTERVAL_TICKS] in every frame. *)
Theorem frame_period_exact :
  let n := Z.to_nat (servo_count s) in
  let e := fireN (S n) s in
  servo_id e = servo_count s /\
  TCNT1 e = ticks_sum s n /\
  OCR1B e = INTERVAL /\
  calls e = calls (fireN n s) ++
            [pulse_end s (servo_count s - 1); Call_TIMER1_SetCompare_B_Value INTERVAL] /\
  servo_id (fire1 e) = 0 /\
  TCNT1 (fire1 e) = 0 /\
  exists rest, calls (fire1 e) = calls e ++ Call_TIMER1_SetTimerValue 0 :: rest.
Proof.
  intros n e.
  pose proof (state_inv_elim s Hs) as (_ & _ & Hc & _).
  assert (En : exists m, n = S m) by (exists (Nat.pred n); subst n; lia).
  destruct En as [m En]. subst e. rewrite En.
  assert (Hcm : servo_count s = Z.of_nat (S m)) by (unfold n in En; lia).
  clearbody n.
  destruct (fires_land m ltac:(lia)) as (Ip & Isv & Icnt & Iid & _ & Ioc & _).
  rewrite (fires_S (S m)).
  set (p := fireN (S m) s) in *. clearbody p.
  replace (Z.to_nat (servo_count s)) with (S m) in Hhead by lia.
  unfold TIMER1_MAX_CAPACITY in interval_fits.
  pose proof (ticks_sum_mono s 0 (S m) Hs ltac:(lia)) as Hnn.
  change (ticks_sum s 0) with 0 in Hnn.
  assert (Hfit : 0 <= INTERVAL <= 65535) by lia.
  destruct (fire_frame_end p Hfit Ip)
    as (E1 & E2 & E3 & E4 & E5); [lia|rewrite Ioc; exact Hhead|].
  rewrite (pulse_end_ext p s), Iid in E5 by exact Isv.
  replace (Z.of_nat m) with (servo_count s - 1) in E5 by lia.
  rewrite Icnt in E1, E2. rewrite Ioc in E3.
  set (e := fire1 p) in *. clearbody e.
  split; [exact E1|]. split; [exact E3|]. split; [exact E4|]. split; [exact E5|].
  apply fire_reset. rewrite E1, E2. apply Z.le_refl.
Qed.

End AllPulses.

End Frame.

(** ** The further properties on the sample histories *)

Example demo_twice_by_pin :
  map Servo.ticks
      (firstn 3 (servos (SERVO_SetAngleByPin demo_F_CPU demo_PRESCALER Binary32 1 3 90
                           demo_twice)))
  = [1500; 0; 1500].
Proof. by_eval. Qed.

Lemma SERVO_SetAngleByPin_all_matches_witness :
  state_inv demo_twice /\ 0 <= 90 <= 180 /\ 0 <= 2 /\
  servo_at (SERVO_SetAngleByPin demo_F_CPU demo_PRESCALER Binary32 1 3 90 demo_twice) 2
  = Servo.mk 1 3 1500.
Proof.
  assert (H1 : state_inv demo_twice) by by_eval.
  assert (H2 : 0 <= 90 <= 180) by lia.
  assert (H3 : 0 <= 2) by lia.
  destruct (SERVO_SetAngleByPin_all_matches demo_F_CPU demo_PRESCALER Binary32
              demo_twice 1 3 90 2 H1 H2 H3) as [W _].
  refine (conj H1 (conj H2 (conj H3 _))).
  rewrite W. by_eval.
Defined.

Lemma SERVO_SetAngleByPin_noop_witness :
  ~ 0 <= 181 <= 180 /\
  SERVO_SetAngleByPin demo_F_CPU demo_PRESCALER Binary32 1 3 181 demo_twice = demo_twice.
Proof.
  assert (H1 : ~ 0 <= 181 <= 180) by lia.
  exact (conj H1 (SERVO_SetAngleByPin_noop demo_F_CPU demo_PRESCALER Binary32
                    demo_twice 1 3 181 (or_introl H1))).
Defined.

Lemma SERVO_Init_ids_consecutive_witness :
  forallb op_ok demo_ops = true /\
  count_inits demo_ops < SERVO_MAX_NUM /\
  fst (SERVO_Init 3 7 demo_state) = 3.
Proof.
  assert (H1 : forallb op_ok demo_ops = true) by by_eval.
  assert (H2 : count_inits demo_ops < SERVO_MAX_NUM) by by_leb.
  exact (conj H1 (conj H2
           (SERVO_Init_ids_consecutive demo_F_CPU demo_PRESCALER Binary32
              demo_ops 3 7 H1 H2))).
Defined.

Lemma registry_append_only_witness :
  state_inv demo_one /\
  forallb op_ok demo_ops = true /\
  servo_count demo_one
  <= servo_count (run_ops demo_F_CPU demo_PRESCALER Binary32 demo_ops demo_one).
Proof.
  assert (H1 : state_inv demo_one) by by_eval.
  assert (H2 : forallb op_ok demo_ops = true) by by_eval.
  destruct (registry_append_only demo_F_CPU demo_PRESCALER Binary32 demo_ops demo_one H1 H2)
    as [W _].
  exact (conj H1 (conj H2 W)).
Defined.

Lemma SERVO_Init_then_SetAngleByID_witness :
  state_inv initial_state /\
  forallb op_ok demo_ops = true /\
  0 <= 90 <= 180 /\
  fst (SERVO_Init 0 5 initial_state) <> 255 /\
  Servo.ticks
    (servo_at
       (SERVO_SetAngleByID demo_F_CPU demo_PRESCALER Binary32
          (fst (SERVO_Init 0 5 initial_state)) 90
          (run_ops demo_F_CPU demo_PRESCALER Binary32 demo_ops
             (snd (SERVO_Init 0 5 initial_state))))
       (fst (SERVO_Init 0 5 initial_state)))
  = angle_ticks demo_F_CPU demo_PRESCALER Binary32 90.
Proof.
  assert (H1 : state_inv initial_state) by by_eval.
  assert (H2 : forallb op_ok demo_ops = true) by by_eval.
  assert (H3 : 0 <= 90 <= 180) by lia.
  assert (H4 : fst (SERVO_Init 0 5 initial_state) <> 255) by (intros E; discriminate E).
  exact (conj H1 (conj H2 (conj H3 (conj H4
           (SERVO_Init_then_SetAngleByID demo_F_CPU demo_PRESCALER Binary32
              initial_state demo_ops 0 5 90 H1 H2 H3 H4))))).
Defined.

Lemma reachable_bounds_witness :
  reachable demo_F_CPU demo_PRESCALER Binary32 demo_pulse /\
  0 <= servo_count demo_pulse <= SERVO_MAX_NUM.
Proof.
  assert (H1 : reachable demo_F_CPU demo_PRESCALER Binary32 demo_pulse).
  { exists (demo_ops ++ [Op_Interrupt 7]). split; by_eval. }
  destruct (reachable_bounds demo_F_CPU demo_PRESCALER Binary32 demo_pulse H1) as (_ & W & _).
  exact (conj H1 W).
Defined.

Lemma SERVO_SetAngleByID_last_wins_witness :
  0 <= 45 <= 180 /\
  SERVO_SetAngleByID demo_F_CPU demo_PRESCALER Binary32 1 45
    (SERVO_SetAngleByID demo_F_CPU demo_PRESCALER Binary32 1 120 demo_state)
  = SERVO_SetAngleByID demo_F_CPU demo_PRESCALER Binary32 1 45 demo_state.
Proof.
  assert (H1 : 0 <= 45 <= 180) by lia.
  exact (conj H1 (SERVO_SetAngleByID_last_wins demo_F_CPU demo_PRESCALER Binary32
                    demo_state 1 120 45 H1)).
Defined.

Lemma SERVO_SetAngleByID_commute_witness :
  0 <= 0 /\ 0 <= 1 /\ 0 <> 1 /\
  SERVO_SetAngleByID demo_F_CPU demo_PRESCALER Binary32 0 10
    (SERVO_SetAngleByID demo_F_CPU demo_PRESCALER Binary32 1 20 demo_state)
  = SERVO_SetAngleByID demo_F_CPU demo_PRESCALER Binary32 1 20
      (SERVO_SetAngleByID demo_F_CPU demo_PRESCALER Binary32 0 10 demo_state).
Proof.
  assert (H1 : 0 <= 0) by lia.
  assert (H2 : 0 <= 1) by lia.
  assert (H3 : 0 <> 1) by lia.
  exact (conj H1 (conj H2 (conj H3
           (SERVO_SetAngleByID_commute demo_F_CPU demo_PRESCALER Binary32
              demo_state 0 1 10 20 H1 H2 H3)))).
Defined.

Lemma microseconds_of_angle_integer_witness :
  0 <= 179 <= 180 /\ microseconds_of_angle Binary32 179 = 1000 + 50 * 179 / 9.
Proof.
  assert (H1 : 0 <= 179 <= 180) by lia.
  exact (conj H1 (proj1 (microseconds_of_angle_integer Binary32 179 H1))).
Defined.

Lemma microseconds_of_angle_step_witness :
  0 <= 89 < 180 /\
  (microseconds_of_angle Binary64 (89 + 1) - microseconds_of_angle Binary64 89 = 5 \/
   microseconds_of_angle Binary64 (89 + 1) - microseconds_of_angle Binary64 89 = 6).
Proof.
  assert (H1 : 0 <= 89 < 180) by lia.
  exact (conj H1 (microseconds_of_angle_step Binary64 89 H1)).
Defined.

Lemma SERVO_US_TO_TICKS_whole_MHz_witness :
  0 <= 999999 < 1000000 /\
  SERVO_US_TO_TICKS 999999 1 2000 = 0 /\
  SERVO_US_TO_TICKS 14745600 8 2000 = SERVO_US_TO_TICKS 14000000 8 2000.
Proof.
  assert (H1 : 0 <= 999999 < 1000000) by lia.
  destruct (SERVO_US_TO_TICKS_whole_MHz 999999 1 Binary32 2000 0) as [_ W].
  destruct (W H1) as [W1 _].
  destruct (SERVO_US_TO_TICKS_whole_MHz 14745600 8 Binary32 2000 0) as [W2 _].
  exact (conj H1 (conj W1 W2)).
Defined.

Lemma frame_cycle_witness :
  state_inv demo_state /\
  servo_count demo_state <= servo_id demo_state /\
  servo_id (run_interrupts demo_F_CPU demo_PRESCALER [7; 1000; 1000; 3000] demo_state) = 3 /\
  servo_id (SERVO_Interrupt demo_F_CPU demo_PRESCALER
              (set_TCNT1 20000
                 (run_interrupts demo_F_CPU demo_PRESCALER [7; 1000; 1000; 3000] demo_state)))
  = 0.
Proof.
  assert (H1 : state_inv demo_state) by by_eval.
  assert (H2 : servo_count demo_state <= servo_id demo_state) by by_leb.
  assert (H3 : forallb is_u16 [7; 1000; 1000; 3000] = true) by by_eval.
  assert (H4 : is_u16 20000 = true) by by_eval.
  assert (H5 : Z.of_nat (length [7; 1000; 1000; 3000]) = servo_count demo_state + 1) by by_eval.
  destruct (frame_cycle demo_F_CPU demo_PRESCALER demo_state [7; 1000; 1000; 3000] 20000
              H1 H2 H3 H4 H5) as (W1 & W2 & _).
  exact (conj H1 (conj H2 (conj W1 W2))).
Defined.

Lemma pulse_ended_on_same_pin_witness :
  state_inv demo_pulse /\
  servo_id demo_pulse < servo_count demo_pulse /\
  servo_id (SERVO_Interrupt demo_F_CPU demo_PRESCALER
              (set_TCNT1 1000
                 (run_ops demo_F_CPU demo_PRESCALER Binary32
                    [Op_Init 3 4; Op_SetAngleByID 0 77] demo_pulse)))
  = servo_id demo_pulse + 1.
Proof.
  assert (H1 : state_inv demo_pulse) by by_eval.
  assert (H2 : servo_id demo_pulse < servo_count demo_pulse) by by_leb.
  assert (H3 : forallb op_ok [Op_Init 3 4; Op_SetAngleByID 0 77] = true) by by_eval.
  assert (H4 : forallb foreground [Op_Init 3 4; Op_SetAngleByID 0 77] = true) by by_eval.
  assert (H5 : is_u16 1000 = true) by by_eval.
  pose proof (pulse_ended_on_same_pin demo_F_CPU demo_PRESCALER Binary32 demo_pulse
                [Op_Init 3 4; Op_SetAngleByID 0 77] 1000 H1 H2 H3 H4 H5) as W.
  cbv zeta in W. destruct W as [W _].
  exact (conj H1 (conj H2 W)).
Defined.

Lemma demo_all_positive :
  forall j, 0 <= j < servo_count demo_all -> 0 < Servo.ticks (servo_at demo_all j).
Proof.
  intros j Hj.
  assert (E : servo_count demo_all = 3) by by_eval. rewrite E in Hj.
  assert (Hcases : j = 0 \/ j = 1 \/ j = 2) by lia.
  destruct Hcases as [ E0 | [ E0 | E0 ] ]; rewrite E0; by_leb.
Qed.

Lemma pulse_width_exact_witness :
  state_inv demo_all /\
  servo_count demo_all <= servo_id demo_all /\
  ticks_sum demo_all (Z.to_nat (servo_count demo_all)) < 65536 /\
  TCNT1 (fires demo_F_CPU demo_PRESCALER 2 demo_all) = 1000 /\
  TCNT1 (fires demo_F_CPU demo_PRESCALER 3 demo_all) = 1000 + 1500.
Proof.
  assert (H1 : state_inv demo_all) by by_eval.
  assert (H2 : servo_count demo_all <= servo_id demo_all) by by_leb.
  assert (H3 : ticks_sum demo_all (Z.to_nat (servo_count demo_all)) < 65536) by by_leb.
  assert (H4 : Z.of_nat 1 < servo_count demo_all) by by_leb.
  pose proof (pulse_width_exact demo_F_CPU demo_PRESCALER demo_all H1 H2
                demo_all_positive H3 1 H4) as W.
  cbv zeta in W. destruct W as (W1 & _ & _ & W2 & _).
  refine (conj H1 (conj H2 (conj H3 (conj _ _)))).
  - rewrite W1. by_eval.
  - rewrite W2. by_eval.
Defined.

Lemma frame_period_exact_witness :
  state_inv demo_all /\
  servo_count demo_all <= servo_id demo_all /\
  SERVO_PWM_INTERVAL_TICKS demo_F_CPU demo_PRESCALER <= TIMER1_MAX_CAPACITY /\
  0 < servo_count demo_all /\
  ticks_sum demo_all (Z.to_nat (servo_count demo_all)) + 50
  < SERVO_PWM_INTERVAL_TICKS demo_F_CPU demo_PRESCALER /\
  TCNT1 (fires demo_F_CPU demo_PRESCALER (S (Z.to_nat (servo_count demo_all))) demo_all)
  = 4500 /\
  OCR1B (fires demo_F_CPU demo_PRESCALER (S (Z.to_nat (servo_count demo_all))) demo_all)
  = 20000.
Proof.
  assert (H1 : state_inv demo_all) by by_eval.
  assert (H2 : servo_count demo_all <= servo_id demo_all) by by_leb.
  assert (H3 : ticks_sum demo_all (Z.to_nat (servo_count demo_all)) < 65536) by by_leb.
  assert (H5 : SERVO_PWM_INTERVAL_TICKS demo_F_CPU demo_PRESCALER <= TIMER1_MAX_CAPACITY)
    by by_leb.
  assert (H6 : 0 < servo_count demo_all) by by_leb.
  assert (H7 : ticks_sum demo_all (Z.to_nat (servo_count demo_all)) + 50
               < SERVO_PWM_INTERVAL_TICKS demo_F_CPU demo_PRESCALER) by by_leb.
  pose proof (frame_period_exact demo_F_CPU demo_PRESCALER demo_all H1 H2
                demo_all_positive H3 H5 H6 H7) as W.
  cbv zeta in W. destruct W as (_ & W1 & W2 & _).
  refine (conj H1 (conj H2 (conj H5 (conj H6 (conj H7 (conj _ _)))))).
  - rewrite W1. by_eval.
  - rewrite W2. by_eval.
Defined.

Lemma zero_width_servo_skipped_witness :
  state_inv demo_state /\
  servo_count demo_state <= servo_id demo_state /\
  Servo.ticks (servo_at demo_state 1) = 0 /\
  servo_id (SERVO_Interrupt demo_F_CPU demo_PRESCALER
              (set_TCNT1 1000 (run_interrupts demo_F_CPU demo_PRESCALER [5] demo_state))) = 1 /\
  OCR1B (SERVO_Interrupt demo_F_CPU demo_PRESCALER
           (set_TCNT1 1000 (run_interrupts demo_F_CPU demo_PRESCALER [5] demo_state)))
  = OCR1B (run_interrupts demo_F_CPU demo_PRESCALER [5] demo_state).
Proof.
  assert (H1 : state_inv demo_state) by by_eval.
  assert (H2 : servo_count demo_state <= servo_id demo_state) by by_leb.
  assert (H3 : forallb is_u16 [5] = true) by by_eval.
  assert (H4 : is_u16 1000 = true) by by_eval.
  assert (H5 : 1 = Z.of_nat (length [5])) by reflexivity.
  assert (H6 : 1 < servo_count demo_state) by by_leb.
  assert (H7 : Servo.ticks (servo_at demo_state 1) = 0) by by_eval.
  pose proof (zero_width_servo_skipped demo_F_CPU demo_PRESCALER demo_state [5] 1000 1
                H1 H2 H3 H4 H5 H6) as W.
  cbv zeta in W. destruct W as (W1 & _ & _ & W2 & _).
  destruct (W2 H7) as [_ W3].
  exact (conj H1 (conj H2 (conj H7 (conj W1 W3)))).
Defined.

Lemma Servo_bitfield_truncation_witness :
  state_inv initial_state /\
  servo_count initial_state < SERVO_MAX_NUM /\
  (4 <= 6 \/ 8 <= 13) /\
  Servo.port (servo_at (snd (SERVO_Init 6 13 initial_state)) 0) = 2 /\
  Servo.pin (servo_at (snd (SERVO_Init 6 13 initial_state)) 0) = 5 /\
  0 < Servo.ticks (servo_at demo_alias 0) /\
  (exists c1 c2,
     calls (SERVO_Interrupt demo_F_CPU demo_PRESCALER demo_alias)
     = calls demo_alias ++ [c1; c2; Call_DIO_SetPinValue (6 mod 4) (13 mod 8) HIGH]) /\
  SERVO_SetAngleByPin demo_F_CPU demo_PRESCALER Binary32 6 13 90
    (snd (SERVO_Init 6 13 initial_state))
  = snd (SERVO_Init 6 13 initial_state).
Proof.
  assert (H1 : state_inv initial_state) by by_eval.
  assert (H2 : servo_count initial_state < SERVO_MAX_NUM) by by_leb.
  assert (H3 : 4 <= 6 \/ 8 <= 13) by lia.
  pose proof (Servo_bitfield_truncation demo_F_CPU demo_PRESCALER Binary32
                initial_state 6 13 90 H1 H2) as W.
  cbv zeta in W. destruct W as (W1 & W2 & W3 & _ & W5 & _ & W7).
  assert (H4 : state_inv (snd (SERVO_Init 6 13 initial_state))) by by_eval.
  assert (H5 : forallb op_ok [Op_SetAngleByID 0 90] = true) by by_eval.
  destruct (W3 [Op_SetAngleByID 0 90] H5) as (P1 & P2 & P3).
  assert (H6 : state_inv demo_alias) by by_eval.
  assert (H7 : 0 < Servo.ticks (servo_at demo_alias 0)) by by_leb.
  assert (H8 : servo_id (SERVO_Interrupt demo_F_CPU demo_PRESCALER demo_alias)
               = fst (SERVO_Init 6 13 initial_state)) by by_eval.
  exact (conj H1 (conj H2 (conj H3 (conj W1 (conj W2 (conj H7
           (conj (W5 demo_alias H6 P1 P2 P3 H7 H8) (W7 H3 _ H4)))))))).
Defined.
